(** * RLM bridge server: message adapter and completion orchestrator

    A shallow embedding of [src/rlm_bridge/server.py].

    Python values are an inductive type [pyval]; a Python [str] is a Rocq
    [string], one [ascii] standing for one character; a [dict] is an
    association list in insertion order whose first binding of a key is
    the one [dict.get] sees.  Code that can raise returns a [result];
    the request handler runs in a small error-and-trace monad whose trace
    records the calls to the orchestrator and to the engine. *)

From Stdlib Require Import List String Ascii ZArith Bool Lia Permutation.
From Stdlib Require Import PrimFloat DecimalString DecimalNat.
Import ListNotations.
Local Open Scope string_scope.

Set Warnings "-register-all".

(** ** Python values *)

Inductive pyval : Type :=
| PNone
| PBool (b : bool)
| PInt (z : Z)
| PFloat (f : float)
| PStr (s : string)
| PList (l : list pyval)
| PDict (d : list (string * pyval))
| PObj (cls : string) (attrs : list (string * pyval)).

Definition pydict : Type := list (string * pyval).

(** [bool(v)]: the truth value Python gives [v] in [if v], [not v] and
    [a or b].  An object of the model is a plain data object (no
    [__bool__], no [__len__], no methods), which is true. *)
Definition truthy (v : pyval) : bool :=
  match v with
  | PNone => false
  | PBool b => b
  | PInt z => negb (Z.eqb z 0)
  | PFloat f => negb (PrimFloat.eqb f PrimFloat.zero)
  | PStr s => negb (String.eqb s "")
  | PList l => match l with [] => false | _ :: _ => true end
  | PDict d => match d with [] => false | _ :: _ => true end
  | PObj _ _ => true
  end.

(** [a or b] *)
Definition py_or (a b : pyval) : pyval := if truthy a then a else b.

(** [type(v).__name__] *)
Definition type_name (v : pyval) : string :=
  match v with
  | PNone => "NoneType"
  | PBool _ => "bool"
  | PInt _ => "int"
  | PFloat _ => "float"
  | PStr _ => "str"
  | PList _ => "list"
  | PDict _ => "dict"
  | PObj cls _ => cls
  end.

(** First binding of [k] in an association list. *)
Fixpoint lookup (k : string) (d : pydict) : option pyval :=
  match d with
  | [] => None
  | (k', v) :: d' => if String.eqb k k' then Some v else lookup k d'
  end.

(** ** Exceptions *)

(** A raised instance of [Exception]: its class name, whether it is an
    instance of [ImportError] (the class or a subclass such as
    [ModuleNotFoundError]), and [str(e)]. *)
Record exn : Type := Exn {
  exn_class : string;
  exn_is_import_error : bool;
  exn_str : string
}.

Inductive result (A : Type) : Type :=
| Ok (a : A)
| Raise (e : exn).
Arguments Ok {A} a.
Arguments Raise {A} e.

Definition rbind {A B : Type} (r : result A) (f : A -> result B) : result B :=
  match r with
  | Ok a => f a
  | Raise e => Raise e
  end.

Notation "'let?' x ':=' r 'in' k" := (rbind r (fun x => k))
  (at level 10, x pattern, r at level 100, k at level 200).

Definition AttributeError (v : pyval) (attr : string) : exn :=
  Exn "AttributeError" false
      ("'" ++ type_name v ++ "' object has no attribute '" ++ attr ++ "'").

Definition TypeError (msg : string) : exn := Exn "TypeError" false msg.

Definition not_subscriptable (v : pyval) : exn :=
  TypeError ("'" ++ type_name v ++ "' object is not subscriptable").

Definition IndexError (msg : string) : exn := Exn "IndexError" false msg.

Definition KeyError (key : string) : exn := Exn "KeyError" false key.

(** ** The Python runtime

    What the source takes from the interpreter and this file does not
    define: [str.upper] (a table over all of Unicode), [str(v)] of a value
    that is not a [str] (as an f-string prints it), and the exception
    [dict.__getitem__] raises on the key [slice(None, stop)] (a [TypeError]
    before Python 3.12, a [KeyError] from 3.12 on); and, for an object
    held in a response, what is known of its class only: what
    [dataclasses.asdict] makes of it (the mapping of its fields for an
    instance of a dataclass, a deep copy otherwise), and what the JSON
    provider of Flask writes for it (a string for a date, a [Decimal] or a
    [UUID], the written mapping of its fields for an instance of a
    dataclass) or raises (the [TypeError] of an object it has no rule
    for). *)
Record PyRuntime : Type := {
  str_upper : string -> string;
  str_of : pyval -> string;
  dict_slice_error : Z -> exn;
  asdict_object : pyval -> pyval;
  json_default : pyval -> result pyval
}.

Definition nl : string := String (ascii_of_nat 10) EmptyString.

(** [str.join] *)
Fixpoint join (sep : string) (parts : list string) : string :=
  match parts with
  | [] => EmptyString
  | [p] => p
  | p :: rest => p ++ sep ++ join sep rest
  end.

(** First [n] characters of [s]: the slice [s[:n]] for [n >= 0]. *)
Fixpoint str_take (n : nat) (s : string) : string :=
  match n, s with
  | S n', String c s' => String c (str_take n' s')
  | _, _ => EmptyString
  end.

Fixpoint chars (s : string) : list pyval :=
  match s with
  | EmptyString => []
  | String c s' => PStr (String c EmptyString) :: chars s'
  end.

(** [v.get(k, default)] *)
Definition py_get (v : pyval) (k : string) (default : pyval) : result pyval :=
  match v with
  | PDict d => Ok (match lookup k d with Some x => x | None => default end)
  | _ => Raise (AttributeError v "get")
  end.

(** [getattr(v, name, default)] for a data attribute [name]; values that
    are not objects of the model have none of the attributes the source
    asks for. *)
Definition py_getattr (v : pyval) (name : string) (default : pyval) : pyval :=
  match v with
  | PObj _ attrs => match lookup name attrs with Some x => x | None => default end
  | _ => default
  end.

(** [v.name] *)
Definition py_attr (v : pyval) (name : string) : result pyval :=
  match v with
  | PObj _ attrs =>
      match lookup name attrs with
      | Some x => Ok x
      | None => Raise (AttributeError v name)
      end
  | _ => Raise (AttributeError v name)
  end.

(** [len(v)] *)
Definition py_len (v : pyval) : result Z :=
  match v with
  | PStr s => Ok (Z.of_nat (String.length s))
  | PList l => Ok (Z.of_nat (List.length l))
  | PDict d => Ok (Z.of_nat (List.length d))
  | _ => Raise (TypeError ("object of type '" ++ type_name v ++ "' has no len()"))
  end.

(** [v == s] for a string literal [s] *)
Definition py_eq_str (v : pyval) (s : string) : bool :=
  match v with
  | PStr t => String.eqb t s
  | _ => false
  end.

Section Runtime.

Variable py : PyRuntime.

(** [role.upper()] *)
Definition py_upper (v : pyval) : result string :=
  match v with
  | PStr s => Ok (str_upper py s)
  | _ => Raise (AttributeError v "upper")
  end.

(** A replacement field [{v}] of an f-string. *)
Definition format_value (v : pyval) : string :=
  match v with
  | PStr s => s
  | _ => str_of py v
  end.

(** The items of [v[:-1]], in order. *)
Definition py_slice_init (v : pyval) : result (list pyval) :=
  match v with
  | PList l => Ok (removelast l)
  | PStr s => Ok (removelast (chars s))
  | PDict _ => Raise (dict_slice_error py (-1))
  | _ => Raise (not_subscriptable v)
  end.

(** [v[-1]] *)
Definition py_index_last (v : pyval) : result pyval :=
  match v with
  | PList [] => Raise (IndexError "list index out of range")
  | PList (x :: l) => Ok (last l x)
  | PStr s =>
      match chars s with
      | [] => Raise (IndexError "string index out of range")
      | x :: l => Ok (last l x)
      end
  | PDict _ => Raise (KeyError "-1")
  | _ => Raise (not_subscriptable v)
  end.

(** [v[:n]] for a literal [n >= 0] *)
Definition py_slice_to (n : nat) (v : pyval) : result pyval :=
  match v with
  | PStr s => Ok (PStr (str_take n s))
  | PList l => Ok (PList (firstn n l))
  | PDict _ => Raise (dict_slice_error py (Z.of_nat n))
  | _ => Raise (not_subscriptable v)
  end.

(** ** The message adapter *)

(** One pass of the loop body of [messages_to_context]: the entry
    appended to [context_parts] for [msg]. *)
Definition context_part (msg : pyval) : result string :=
  let? role := py_get msg "role" (PStr "user") in
  let? content := py_get msg "content" (PStr "") in
  let? up := py_upper role in
  Ok ("[" ++ up ++ "]: " ++ format_value content).

(** The loop [for msg in messages[:-1]]: it stops at the first turn
    that raises. *)
Fixpoint context_parts (msgs : list pyval) : result (list string) :=
  match msgs with
  | [] => Ok []
  | msg :: rest =>
      let? part := context_part msg in
      let? parts := context_parts rest in
      Ok (part :: parts)
  end.

Definition messages_to_context (messages : pyval) : result (pyval * pyval) :=
  if negb (truthy messages) then Ok (PStr "", PStr "")
  else
    let? init := py_slice_init messages in
    let? parts := context_parts init in
    let context := join (nl ++ nl) parts in
    let? last_msg := py_index_last messages in
    let? query := py_get last_msg "content" (PStr "") in
    Ok (PStr context, query).

End Runtime.

(** An instance to run the model on examples: upper-casing of the ASCII
    letters, [str] of [None] and booleans as Python prints them, and
    objects that are neither instances of a dataclass nor known to the JSON
    provider. *)
Definition ascii_upper_char (c : ascii) : ascii :=
  let n := nat_of_ascii c in
  if (97 <=? n)%nat && (n <=? 122)%nat then ascii_of_nat (n - 32) else c.

Fixpoint ascii_upper (s : string) : string :=
  match s with
  | EmptyString => EmptyString
  | String c s' => String (ascii_upper_char c) (ascii_upper s')
  end.

Definition example_runtime : PyRuntime := {|
  str_upper := ascii_upper;
  str_of := fun v =>
    match v with
    | PNone => "None"
    | PBool true => "True"
    | PBool false => "False"
    | PStr s => s
    | _ => "<" ++ type_name v ++ ">"
    end;
  dict_slice_error := fun _ => TypeError "unhashable type: 'slice'";
  asdict_object := fun v => v;
  json_default := fun v =>
    Raise (TypeError ("Object of type " ++ type_name v ++ " is not JSON serializable"))
|}.

Definition turn (role content : string) : pyval :=
  PDict [("role", PStr role); ("content", PStr content)].

(** ** Configuration *)

(** The module's globals [DEFAULT_BACKEND], [DEFAULT_MODEL] and
    [DEFAULT_MAX_RECURSION], set once when the module is loaded. *)
Record Defaults : Type := {
  DEFAULT_BACKEND : string;
  DEFAULT_MODEL : string;
  DEFAULT_MAX_RECURSION : Z
}.

(** [os.getenv(k)] and [os.getenv(k, default)] over [os.environ] as it is
    after [load_dotenv()]. *)
Definition environ_t : Type := list (string * string).

Fixpoint getenv (environ : environ_t) (k : string) : option string :=
  match environ with
  | [] => None
  | (k', v) :: rest => if String.eqb k k' then Some v else getenv rest k
  end.

Definition getenv_default (environ : environ_t) (k default : string) : string :=
  match getenv environ k with
  | Some v => v
  | None => default
  end.

(** [int(s)] on a string of ASCII characters: surrounding white space
    (the characters 9 to 13 and the space) is dropped, one sign is
    allowed, the digits may be grouped by single underscores, and a
    numeral of more digits than [sys.int_max_str_digits] (4300 unless
    configured, in Python 3.11 and later) is refused.  [None] stands for
    [ValueError]. *)
Definition is_space (c : ascii) : bool :=
  let n := nat_of_ascii c in
  ((9 <=? n)%nat && (n <=? 13)%nat) || (n =? 32)%nat.

Fixpoint lstrip (s : string) : string :=
  match s with
  | EmptyString => EmptyString
  | String c s' => if is_space c then lstrip s' else s
  end.

Fixpoint str_rev_onto (s acc : string) : string :=
  match s with
  | EmptyString => acc
  | String c s' => str_rev_onto s' (String c acc)
  end.

Definition strip (s : string) : string :=
  str_rev_onto (lstrip (str_rev_onto (lstrip s) EmptyString)) EmptyString.

Definition digit_val (c : ascii) : option Z :=
  let n := nat_of_ascii c in
  if (48 <=? n)%nat && (n <=? 57)%nat then Some (Z.of_nat (n - 48)) else None.

Fixpoint digits (s : string) (acc : Z) (after_digit : bool) : option Z :=
  match s with
  | EmptyString => if after_digit then Some acc else None
  | String c s' =>
      if Ascii.eqb c "_"%char then
        if after_digit then digits s' acc false else None
      else
        match digit_val c with
        | Some d => digits s' (10 * acc + d) true
        | None => None
        end
  end.

Definition int_max_str_digits : N := 4300.

Fixpoint digit_count (s : string) : N :=
  match s with
  | EmptyString => 0
  | String c s' => if Ascii.eqb c "_"%char then digit_count s' else N.succ (digit_count s')
  end.

Definition int_digits (s : string) : option Z :=
  if (int_max_str_digits <? digit_count s)%N then None else digits s 0 false.

Definition int_of_str (s : string) : option Z :=
  match strip s with
  | String c rest =>
      if Ascii.eqb c "+"%char then int_digits rest
      else if Ascii.eqb c "-"%char then option_map Z.opp (int_digits rest)
      else int_digits (String c rest)
  | EmptyString => None
  end.

(** Lines 32-34: the defaults, or [None] when [int] raises and the module
    does not load. *)
Definition load_defaults (environ : environ_t) : option Defaults :=
  match int_of_str (getenv_default environ "RLM_MAX_RECURSION" "10") with
  | Some n => Some {| DEFAULT_BACKEND := getenv_default environ "RLM_BACKEND" "openrouter";
                      DEFAULT_MODEL := getenv_default environ "RLM_MODEL" "google/gemini-3-flash-preview";
                      DEFAULT_MAX_RECURSION := n |}
  | None => None
  end.

(** The dataclass [RlmConfig]; a field holds whatever value the request
    gave, no type is enforced. *)
Record RlmConfig : Type := {
  backend : pyval;
  model_name : pyval;
  max_recursion_depth : pyval;
  environment : pyval
}.

(** The dataclass [CompletionResponse]; [usage] and [metadata] default to
    [None]. *)
Record CompletionResponse : Type := {
  text : pyval;
  usage : pyval;
  metadata : pyval
}.

(** Lines 215-221 of [completion]: the configuration of one request. *)
Definition parse_config (dflt : Defaults) (data : pyval) : result RlmConfig :=
  let? rlm_config_data := py_get data "rlmConfig" (PDict []) in
  let? b := py_get rlm_config_data "backend" (PStr (DEFAULT_BACKEND dflt)) in
  let? m := py_get rlm_config_data "modelName" (PStr (DEFAULT_MODEL dflt)) in
  let? d := py_get rlm_config_data "maxRecursionDepth" (PInt (DEFAULT_MAX_RECURSION dflt)) in
  let? e := py_get rlm_config_data "environment" (PStr "local") in
  Ok {| backend := b; model_name := m; max_recursion_depth := d; environment := e |}.

(** ** The engine and the world around one request *)

(** What the orchestrator hands to the engine: the arguments of [RLM(...)]
    and the prompt given to [rlm.completion]. *)
Record EngineCall : Type := {
  call_backend : pyval;
  call_backend_kwargs : pydict;
  call_max_depth : pyval;
  call_verbose : bool;
  call_prompt : pyval
}.

(** [RLM(...).completion(prompt)]: the result object, or what it raises. *)
Definition Engine : Type := EngineCall -> result pyval.

(** [os.environ], and the outcome of [from rlm import RLM]. *)
Record World : Type := {
  environ : environ_t;
  import_rlm : result Engine
}.

(** What a request leaves behind: [run_rlm_completion] was entered with
    these arguments; the engine was built and asked for a completion. *)
Inductive event : Type :=
| EvOrchestrator (context query : pyval) (config : RlmConfig)
| EvEngine (call : EngineCall).

(** A computation that returns or raises, and leaves a trace. *)
Definition M (A : Type) : Type := (result A * list event)%type.

Definition ret {A : Type} (a : A) : M A := (Ok a, []).

Definition raise {A : Type} (e : exn) : M A := (Raise e, []).

Definition lift {A : Type} (r : result A) : M A := (r, []).

Definition emit (ev : event) : M unit := (Ok tt, [ev]).

Definition bind {A B : Type} (m : M A) (f : A -> M B) : M B :=
  match m with
  | (Ok a, t) => let (r, t') := f a in (r, (t ++ t')%list)
  | (Raise e, t) => (Raise e, t)
  end.

(** [try: m  except Exception as e: h e] *)
Definition try_except {A : Type} (m : M A) (h : exn -> M A) : M A :=
  match m with
  | (Ok a, t) => (Ok a, t)
  | (Raise e, t) => let (r, t') := h e in (r, (t ++ t')%list)
  end.

Notation "x <- m ;; k" := (bind m (fun x => k))
  (at level 61, m at next level, right associativity).

(** Lines 99-109: the credential of the backend, and the keyword
    arguments of the backend. *)
Definition api_key_of (w : World) (config : RlmConfig) : option string :=
  if py_eq_str (backend config) "openrouter" then getenv (environ w) "OPENROUTER_API_KEY"
  else if py_eq_str (backend config) "openai" then getenv (environ w) "OPENAI_API_KEY"
  else if py_eq_str (backend config) "anthropic" then getenv (environ w) "ANTHROPIC_API_KEY"
  else None.

Definition backend_kwargs_of (w : World) (config : RlmConfig) : pydict :=
  ("model_name", model_name config) ::
  match api_key_of w config with
  | Some k => if String.eqb k "" then [] else [("api_key", PStr k)]
  | None => []
  end.

(** The entries of a mapping in the order of their keys, as
    [sorted(d.items())] gives them: a stable insertion sort. *)
Fixpoint insert_entry {A : Type} (k : string) (x : A) (l : list (string * A))
  : list (string * A) :=
  match l with
  | [] => [(k, x)]
  | (k', x') :: l' =>
      if String.leb k k' then (k, x) :: l else (k', x') :: insert_entry k x l'
  end.

Fixpoint sort_entries {A : Type} (l : list (string * A)) : list (string * A) :=
  match l with
  | [] => []
  | (k, x) :: l' => insert_entry k x (sort_entries l')
  end.

(** The results of a run of computations, or the first exception. *)
Fixpoint sequence {A : Type} (l : list (result A)) : result (list A) :=
  match l with
  | [] => Ok []
  | r :: l' =>
      let? x := r in
      let? xs := sequence l' in
      Ok (x :: xs)
  end.

Fixpoint sequence_entries {A : Type} (l : list (string * result A))
  : result (list (string * A)) :=
  match l with
  | [] => Ok []
  | (k, r) :: l' =>
      let? x := r in
      let? xs := sequence_entries l' in
      Ok ((k, x) :: xs)
  end.

Section Orchestrator.

Variable py : PyRuntime.

(** Lines 113-120: the prompt. *)
Definition full_prompt (context query : pyval) : pyval :=
  if truthy context then
    PStr ("Previous conversation context:" ++ nl ++ format_value py context ++ nl ++ nl
          ++ "Current request:" ++ nl ++ format_value py query)
  else query.

Definition engine_call (w : World) (context query : pyval) (config : RlmConfig) : EngineCall :=
  {| call_backend := backend config;
     call_backend_kwargs := backend_kwargs_of w config;
     call_max_depth := max_recursion_depth config;
     call_verbose := true;
     call_prompt := full_prompt context query |}.

(** The engine invocation: the import, then the call; what it returns or
    raises. *)
Definition engine_outcome (w : World) (context query : pyval) (config : RlmConfig)
  : result pyval :=
  let? RLM := import_rlm w in
  RLM (engine_call w context query config).

(** Lines 147-154: the usage mapping of a result. *)
Definition usage_of (res : pyval) : pyval :=
  let usage_summary := py_getattr res "usage_summary" PNone in
  if truthy usage_summary then
    PDict [("promptTokens",
            py_or (py_or (py_getattr usage_summary "prompt_tokens" (PInt 0))
                         (py_getattr usage_summary "input_tokens" (PInt 0)))
                  (PInt 0));
           ("completionTokens",
            py_or (py_or (py_getattr usage_summary "completion_tokens" (PInt 0))
                         (py_getattr usage_summary "output_tokens" (PInt 0)))
                  (PInt 0))]
  else PDict [].

(** Lines 159-162 *)
Definition metadata_of (res : pyval) : pyval :=
  PDict [("recursionDepth", py_getattr res "depth" (PInt 0));
         ("executionTime", py_getattr res "execution_time" (PInt 0))].

(** The body of the [try] of [run_rlm_completion].  The calls to [len]
    are those of the logged f-strings; logging and [os.chdir] to the
    directory of the module leave no mark in the model. *)
Definition run_rlm_try (w : World) (context query : pyval) (config : RlmConfig)
  : M CompletionResponse :=
  RLM <- lift (import_rlm w) ;;
  let call := engine_call w context query config in
  _ <- lift (py_len context) ;;
  _ <- lift (py_len query) ;;
  _ <- lift (py_len (call_prompt call)) ;;
  _ <- emit (EvEngine call) ;;
  res <- lift (RLM call) ;;
  response <- lift (py_attr res "response") ;;
  _ <- lift (py_len response) ;;
  ret {| text := response; usage := usage_of res; metadata := metadata_of res |}.

(** Lines 165-171: the fallback of [except ImportError]. *)
Definition mock_response (query : pyval) : M CompletionResponse :=
  head <- lift (py_slice_to py 100 query) ;;
  ret {| text := PStr ("[RLM MOCK] Would process query: " ++ format_value py head ++ "...");
         usage := PNone;
         metadata := PDict [("mock", PBool true)] |}.

Definition run_rlm_completion (w : World) (context query : pyval) (config : RlmConfig)
  : M CompletionResponse :=
  _ <- emit (EvOrchestrator context query config) ;;
  try_except (run_rlm_try w context query config)
    (fun e => if exn_is_import_error e then mock_response query else raise e).

(** ** The endpoint [POST /completion] *)

Record http_response : Type := {
  status : Z;
  body : pyval
}.

(** [dataclasses.asdict(response)]: the mapping of the three fields, in
    the order of their declaration; a list or mapping held in a field is
    rebuilt with its items converted, an object goes through
    [asdict_object], any other value is kept. *)
Fixpoint asdict_inner (v : pyval) : pyval :=
  match v with
  | PList l => PList (map asdict_inner l)
  | PDict d => PDict (map (fun kv => let '(k, x) := kv in (k, asdict_inner x)) d)
  | PObj _ _ => asdict_object py v
  | _ => v
  end.

Definition asdict (r : CompletionResponse) : pyval :=
  PDict [("text", asdict_inner (text r));
         ("usage", asdict_inner (usage r));
         ("metadata", asdict_inner (metadata r))].

(** What [json.dumps] writes for [v] under the provider of Flask, as a
    value: the items of a list in order, the entries of a mapping in the
    order of their keys ([sort_keys=True]), an object as [json_default]
    has it; it raises what the first value, in that order, that cannot be
    written makes the provider raise. *)
Fixpoint json_written (v : pyval) : result pyval :=
  match v with
  | PList l =>
      let? items := sequence (map json_written l) in
      Ok (PList items)
  | PDict d =>
      let? entries :=
        sequence_entries
          (sort_entries (map (fun kv => let '(k, x) := kv in (k, json_written x)) d)) in
      Ok (PDict entries)
  | PObj _ _ => json_default py v
  | _ => Ok v
  end.

(** [jsonify(v)] with the default status 200; the body is the value as
    written. *)
Definition jsonify (v : pyval) : result pyval := json_written v.

Definition error_body (msg : string) : pyval := PDict [("error", PStr msg)].

(** The body of the [try] of [completion]; [req] is what
    [request.get_json()] returns or raises. *)
Definition completion_try (dflt : Defaults) (w : World) (req : result pyval) : M http_response :=
  data <- lift req ;;
  if negb (truthy data) then
    ret {| status := 400; body := error_body "No JSON body provided" |}
  else
    messages <- lift (py_get data "messages" (PList [])) ;;
    if negb (truthy messages) then
      ret {| status := 400; body := error_body "No messages provided" |}
    else
      config <- lift (parse_config dflt data) ;;
      _ <- lift (py_len messages) ;;
      cq <- lift (messages_to_context py messages) ;;
      response <- run_rlm_completion w (fst cq) (snd cq) config ;;
      b <- lift (jsonify (asdict response)) ;;
      ret {| status := 200; body := b |}.

Definition completion (dflt : Defaults) (w : World) (req : result pyval) : M http_response :=
  try_except (completion_try dflt w req)
    (fun e => ret {| status := 500; body := error_body (exn_str e) |}).

End Orchestrator.

(** ** The body of a request *)

(** What [request.get_json()] of line 205, called with no argument, is
    given: a request whose [Content-Type] is not JSON, as a request sent
    with no body at all is; data announced as JSON that are not JSON, as
    the empty data are; or data that are the JSON text of a value. *)
Inductive sent : Type :=
| NoJsonContentType
| NotJsonData
| JsonData (v : pyval).

(** The two exceptions [get_json] raises, both subclasses of
    [Exception]; their class and message are Werkzeug's. *)
Record Werkzeug : Type := {
  unsupported_media_type : exn;
  bad_request : exn
}.

(** [request.get_json()] as Flask has it since version 2.1: without the
    JSON content type it does not read the data and raises
    [UnsupportedMediaType]; data that do not parse make it raise
    [BadRequest]; it returns [None] only for the JSON text [null]. *)
Definition get_json (wz : Werkzeug) (s : sent) : result pyval :=
  match s with
  | NoJsonContentType => Raise (unsupported_media_type wz)
  | NotJsonData => Raise (bad_request wz)
  | JsonData v => Ok v
  end.

(** ** Vocabulary of the specification *)

(** The turns on which the adapter returns: every turn is a mapping, and
    every turn but the last has a [str] under [role] or no [role]. *)
Definition is_dict (v : pyval) : bool :=
  match v with
  | PDict _ => true
  | _ => false
  end.

Definition role_ok (msg : pyval) : bool :=
  match msg with
  | PDict d =>
      match lookup "role" d with
      | None | Some (PStr _) => true
      | Some _ => false
      end
  | _ => false
  end.

Fixpoint well_formed (msgs : list pyval) : bool :=
  match msgs with
  | [] => true
  | [m] => is_dict m
  | m :: rest => role_ok m && well_formed rest
  end.

(** The role of a turn, ["user"] when absent, and its content, the empty
    string when absent. *)
Definition turn_role (msg : pyval) : string :=
  match msg with
  | PDict d => match lookup "role" d with Some (PStr r) => r | _ => "user" end
  | _ => "user"
  end.

Definition turn_content (msg : pyval) : pyval :=
  match msg with
  | PDict d => match lookup "content" d with Some c => c | None => PStr "" end
  | _ => PStr ""
  end.

(** The labeled block ["[<ROLE_UPPERCASED>]: <content>"] of a turn. *)
Definition labeled_block (py : PyRuntime) (msg : pyval) : string :=
  "[" ++ str_upper py (turn_role msg) ++ "]: " ++ format_value py (turn_content msg).

(** [needle] occurs in [s]. *)
Definition contains (s needle : string) : Prop :=
  exists pre post, s = pre ++ needle ++ post.

(** The first value among the attributes [fields] of [obj], in that
    order, that is present and populated; [0] when there is none. *)
Fixpoint first_populated (fields : list string) (obj : pyval) : pyval :=
  match fields with
  | [] => PInt 0
  | f :: rest =>
      match obj with
      | PObj _ attrs =>
          match lookup f attrs with
          | Some v => if truthy v then v else first_populated rest obj
          | None => first_populated rest obj
          end
      | _ => first_populated rest obj
      end
  end.

(** A field of the resolved configuration: the override of the request,
    else the default of the process, else the hardcoded value. *)
Definition resolved (override process_default : option pyval) (hardcoded : pyval) : pyval :=
  match override, process_default with
  | Some v, _ => v
  | None, Some v => v
  | None, None => hardcoded
  end.

Definition env_str (environ : environ_t) (k : string) : option pyval :=
  option_map PStr (getenv environ k).

Definition env_int (environ : environ_t) (k : string) : option pyval :=
  match getenv environ k with
  | Some s => option_map PInt (int_of_str s)
  | None => None
  end.

(** The decimal numeral of [n], as the Standard Library prints it: the
    digits ["0"] to ["9"], no sign, no leading zero. *)
Definition decimal (n : nat) : string := NilEmpty.string_of_uint (Nat.to_uint n).

(** No character of [s] is white space for [int]. *)
Fixpoint no_space (s : string) : bool :=
  match s with
  | EmptyString => true
  | String c s' => negb (is_space c) && no_space s'
  end.

(** The constructor the dataclass [CompletionResponse] generates, called
    with the entries of [kwargs] as keyword arguments; [None] stands for the
    [TypeError] of a missing [text], an unexpected keyword, or an argument
    that is not a mapping. *)
Definition known_field (k : string) : bool :=
  String.eqb k "text" || String.eqb k "usage" || String.eqb k "metadata".

Definition from_dict (kwargs : pyval) : option CompletionResponse :=
  match kwargs with
  | PDict d =>
      if forallb (fun kv => known_field (fst kv)) d then
        match lookup "text" d with
        | Some t =>
            Some {| text := t;
                    usage := match lookup "usage" d with Some u => u | None => PNone end;
                    metadata := match lookup "metadata" d with Some m => m | None => PNone end |}
        | None => None
        end
      else None
  | _ => None
  end.

(** No object anywhere in [v]: a value of JSON. *)
Fixpoint object_free (v : pyval) : bool :=
  match v with
  | PList l => forallb object_free l
  | PDict d => forallb (fun kv => let '(_, x) := kv in object_free x) d
  | PObj _ _ => false
  | _ => true
  end.

(** [v] with the entries of every mapping in the order of their keys. *)
Fixpoint sort_keys (v : pyval) : pyval :=
  match v with
  | PList l => PList (map sort_keys l)
  | PDict d =>
      PDict (sort_entries (map (fun kv => let '(k, x) := kv in (k, sort_keys x)) d))
  | _ => v
  end.

(** The second value is the first up to the order of the entries of its
    mappings: equality of mappings in Python, their keys being distinct. *)
Inductive reordered : pyval -> pyval -> Prop :=
| reordered_refl (v : pyval) : reordered v v
| reordered_list (l l' : list pyval) :
    Forall2 reordered l l' -> reordered (PList l) (PList l')
| reordered_dict (d d' d'' : pydict) :
    Forall2 (fun kv kv' => fst kv = fst kv' /\ reordered (snd kv) (snd kv')) d d' ->
    Permutation d' d'' ->
    reordered (PDict d) (PDict d'').

(** Two request bodies that differ at most under the key [model]. *)
Definition same_but_model (d1 d2 : pydict) : Prop :=
  forall k, k <> "model" -> lookup k d1 = lookup k d2.

(** A world for the examples: no engine installed, or an engine given by
    a function. *)
Definition no_module : exn :=
  Exn "ModuleNotFoundError" true "No module named 'rlm'".

Definition world_without_engine : World :=
  {| environ := []; import_rlm := Raise no_module |}.

Definition world_with (eng : Engine) : World :=
  {| environ := [("OPENROUTER_API_KEY", "sk-test")]; import_rlm := Ok eng |}.

Definition hardcoded_defaults : Defaults :=
  {| DEFAULT_BACKEND := "openrouter";
     DEFAULT_MODEL := "google/gemini-3-flash-preview";
     DEFAULT_MAX_RECURSION := 10 |}.

(** Engines for the examples: one that answers with text only, one that
    answers with a usage summary under the second naming convention, one
    that fails. *)
Definition bare_engine : Engine :=
  fun _ => Ok (PObj "RLMChatCompletion" [("response", PStr "4")]).

Definition metered_engine : Engine :=
  fun _ =>
    Ok (PObj "RLMChatCompletion"
          [("response", PStr "4");
           ("usage_summary",
            PObj "UsageSummary"
              [("prompt_tokens", PInt 0); ("input_tokens", PInt 12);
               ("output_tokens", PInt 7)]);
           ("depth", PInt 2)]).

Definition provider_error : exn := Exn "RuntimeError" false "provider returned 401".

Definition failing_engine : Engine := fun _ => Raise provider_error.

Definition hardcoded_config : RlmConfig :=
  {| backend := PStr "openrouter";
     model_name := PStr "google/gemini-3-flash-preview";
     max_recursion_depth := PInt 10;
     environment := PStr "local" |}.

Definition one_turn_body : pyval := PDict [("messages", PList [turn "user" "Hi"])].

(** The credential slots of lines 100-105: the backend identifier and the
    environment variable that holds its key. *)
Definition credential_slots : list (string * string) :=
  [("openrouter", "OPENROUTER_API_KEY");
   ("openai", "OPENAI_API_KEY");
   ("anthropic", "ANTHROPIC_API_KEY")].

(** The fallback response for a string query. *)
Definition mock_of (query : string) : CompletionResponse :=
  {| text := PStr ("[RLM MOCK] Would process query: " ++ str_take 100 query ++ "...");
     usage := PNone;
     metadata := PDict [("mock", PBool true)] |}.

(** The request [req] passes the validation, the parsing of the
    configuration and the adapter of [completion], which give the context
    [c], the query [q] and the configuration [cfg]. *)
Definition request_reaches (py : PyRuntime) (dflt : Defaults) (req : result pyval)
           (c q : pyval) (cfg : RlmConfig) : Prop :=
  exists data messages,
    req = Ok data /\ truthy data = true
    /\ py_get data "messages" (PList []) = Ok messages /\ truthy messages = true
    /\ parse_config dflt data = Ok cfg
    /\ messages_to_context py messages = Ok (c, q).

(** Two configurations with the same backend, model and depth. *)
Definition same_but_environment (c1 c2 : RlmConfig) : Prop :=
  backend c1 = backend c2 /\ model_name c1 = model_name c2
  /\ max_recursion_depth c1 = max_recursion_depth c2.

(** [GET /health], lines 177-194; [import_module] is what [import rlm]
    gives, the module or what it raises, of which only an [ImportError] is
    caught. *)
Definition health (py : PyRuntime) (dflt : Defaults) (import_module : result pyval)
  : result http_response :=
  let? probe :=
    match import_module with
    | Ok rlm => Ok (PBool true, py_getattr rlm "__version__" (PStr "unknown"))
    | Raise e => if exn_is_import_error e then Ok (PBool false, PNone) else Raise e
    end in
  let? b := jsonify py (PDict [("status", PStr "ok");
                            ("rlm_available", fst probe);
                            ("rlm_version", snd probe);
                            ("default_backend", PStr (DEFAULT_BACKEND dflt));
                            ("default_model", PStr (DEFAULT_MODEL dflt))]) in
  Ok {| status := 200; body := b |}.

(** More engines for the examples: one whose call raises an
    [ImportError] of its own, one whose result has no [response]. *)
Definition missing_client : exn :=
  Exn "ModuleNotFoundError" true "No module named 'openai'".

Definition lazy_import_engine : Engine := fun _ => Raise missing_client.

(** Werkzeug's exceptions with the messages of version 3. *)
Definition werkzeug : Werkzeug :=
  {| unsupported_media_type :=
       Exn "UnsupportedMediaType" false
         "415 Unsupported Media Type: Did not attempt to load JSON data because the request Content-Type was not 'application/json'.";
     bad_request :=
       Exn "BadRequest" false
         "400 Bad Request: The browser (or proxy) sent a request that this server could not understand." |}.

Definition empty_result_engine : Engine := fun _ => Ok (PObj "RLMChatCompletion" []).

Definition docker_body : pyval :=
  PDict [("messages", PList [turn "user" "Hi"]);
         ("rlmConfig", PDict [("environment", PStr "docker")])].

Definition docker_config : RlmConfig :=
  {| backend := PStr "openrouter";
     model_name := PStr "google/gemini-3-flash-preview";
     max_recursion_depth := PInt 10;
     environment := PStr "docker" |}.

(** An engine whose result times itself with an object. *)
Definition timed_engine : Engine :=
  fun _ => Ok (PObj "RLMChatCompletion"
                 [("response", PStr "4"); ("execution_time", PObj "timedelta" [])]).

(** * Properties *)

(** ** The model at the scenarios of the specification *)

Example scenario_three_turns :
  messages_to_context example_runtime
    (PList [turn "user" "Hi"; turn "assistant" "Hello"; turn "user" "What's 2+2?"])
  = Ok (PStr ("[USER]: Hi" ++ nl ++ nl ++ "[ASSISTANT]: Hello"), PStr "What's 2+2?").
Proof. vm_compute. reflexivity. Qed.

Example load_defaults_empty : load_defaults [] = Some hardcoded_defaults.
Proof. reflexivity. Qed.

Example int_of_str_examples :
  int_of_str " 12 " = Some 12%Z /\ int_of_str "-7" = Some (-7)%Z /\
  int_of_str "1_000" = Some 1000%Z /\ int_of_str "1__0" = None /\
  int_of_str "" = None /\ int_of_str "ten" = None /\ int_of_str "0012" = Some 12%Z.
Proof. repeat split; reflexivity. Qed.

(** A request served by the engine: status 200, the usage read under the
    second naming convention, the depth of the result, no execution
    time; the keys are written sorted. *)
Example endpoint_success :
  completion example_runtime hardcoded_defaults (world_with metered_engine) (Ok one_turn_body)
  = (Ok {| status := 200;
           body := PDict [("metadata", PDict [("executionTime", PInt 0);
                                              ("recursionDepth", PInt 2)]);
                          ("text", PStr "4");
                          ("usage", PDict [("completionTokens", PInt 7);
                                           ("promptTokens", PInt 12)])] |},
     [EvOrchestrator (PStr "") (PStr "Hi") hardcoded_config;
      EvEngine {| call_backend := PStr "openrouter";
                  call_backend_kwargs :=
                    [("model_name", PStr "google/gemini-3-flash-preview");
                     ("api_key", PStr "sk-test")];
                  call_max_depth := PInt 10;
                  call_verbose := true;
                  call_prompt := PStr "Hi" |}]).
Proof. vm_compute. reflexivity. Qed.

(** A failure of the engine reaches the caller as a 500 with its
    message. *)
Example endpoint_engine_failure :
  fst (completion example_runtime hardcoded_defaults (world_with failing_engine)
         (Ok one_turn_body))
  = Ok {| status := 500; body := error_body "provider returned 401" |}.
Proof. vm_compute. reflexivity. Qed.

(** A body that is a JSON array has no [get]. *)
Example endpoint_array_body :
  completion example_runtime hardcoded_defaults (world_with bare_engine)
    (Ok (PList [PInt 1]))
  = (Ok {| status := 500; body := error_body "'list' object has no attribute 'get'" |}, []).
Proof. vm_compute. reflexivity. Qed.

(** [rlmConfig] given as [null] is not a mapping. *)
Example endpoint_null_config :
  fst (completion example_runtime hardcoded_defaults (world_with bare_engine)
         (Ok (PDict [("messages", PList [turn "user" "Hi"]); ("rlmConfig", PNone)])))
  = Ok {| status := 500; body := error_body "'NoneType' object has no attribute 'get'" |}.
Proof. vm_compute. reflexivity. Qed.

(** A last turn whose content is a number: with the engine missing, the
    slice of the fallback raises. *)
Example endpoint_number_query :
  fst (completion example_runtime hardcoded_defaults world_without_engine
         (Ok (PDict [("messages", PList [PDict [("role", PStr "user"); ("content", PInt 5)]])])))
  = Ok {| status := 500; body := error_body "'int' object is not subscriptable" |}.
Proof. vm_compute. reflexivity. Qed.

(** The fallback keeps 100 characters of a query of 120. *)
Example fallback_truncates :
  let ten := "0123456789" in
  let fifty := ten ++ ten ++ ten ++ ten ++ ten in
  fst (run_rlm_completion example_runtime world_without_engine (PStr "")
         (PStr (fifty ++ fifty ++ ten ++ ten)) hardcoded_config)
  = Ok {| text := PStr ("[RLM MOCK] Would process query: " ++ fifty ++ fifty ++ "...");
          usage := PNone;
          metadata := PDict [("mock", PBool true)] |}.
Proof. vm_compute. reflexivity. Qed.

(** ** The message adapter *)

Section AdapterFacts.

Variable py : PyRuntime.

Lemma context_part_ok (msg : pyval) :
  role_ok msg = true -> context_part py msg = Ok (labeled_block py msg).
Proof.
  destruct msg as [| | | | |l|d|c a]; simpl; try discriminate.
  unfold context_part, labeled_block, turn_role, turn_content; simpl.
  destruct (lookup "role" d) as [[| | | |r| | |]|]; try discriminate; intros _;
    destruct (lookup "content" d); reflexivity.
Qed.

Lemma context_part_returns (msg : pyval) (part : string) :
  context_part py msg = Ok part -> role_ok msg = true.
Proof.
  destruct msg as [| | | | |l|d|c a]; simpl; try discriminate.
  unfold context_part; simpl.
  destruct (lookup "role" d) as [[| | | |r| | |]|]; simpl; try discriminate; reflexivity.
Qed.

Lemma context_parts_ok (msgs : list pyval) :
  forallb role_ok msgs = true ->
  context_parts py msgs = Ok (map (labeled_block py) msgs).
Proof.
  induction msgs as [|m rest IH]; simpl; [reflexivity|].
  intros H. apply andb_true_iff in H as [Hm Hrest].
  rewrite (context_part_ok m Hm); simpl.
  rewrite (IH Hrest); reflexivity.
Qed.

Lemma context_parts_returns (msgs : list pyval) (parts : list string) :
  context_parts py msgs = Ok parts -> forallb role_ok msgs = true.
Proof.
  revert parts. induction msgs as [|m rest IH]; simpl; intros parts H; [reflexivity|].
  destruct (context_part py m) as [part|e] eqn:Hm; simpl in H; [|discriminate].
  destruct (context_parts py rest) as [ps|e] eqn:Hrest; simpl in H; [|discriminate].
  rewrite (context_part_returns m part Hm), (IH ps eq_refl). reflexivity.
Qed.

Lemma last_cons (x y : pyval) (rest : list pyval) :
  last (y :: rest) x = last rest y.
Proof.
  revert x y. induction rest as [|z rest IH]; intros x y; [reflexivity|].
  change (last (y :: z :: rest) x) with (last (z :: rest) x).
  rewrite (IH x z), (IH y z). reflexivity.
Qed.

Lemma removelast_cons_length (x : pyval) (rest : list pyval) :
  List.length (removelast (x :: rest)) = List.length rest.
Proof.
  revert x. induction rest as [|y rest IH]; intros x; [reflexivity|].
  change (removelast (x :: y :: rest)) with (x :: removelast (y :: rest)).
  cbn [List.length]. rewrite IH. reflexivity.
Qed.

(** [well_formed] splits into the turns of the loop and the last turn. *)
Lemma well_formed_split (x : pyval) (msgs : list pyval) :
  well_formed (x :: msgs) =
  forallb role_ok (removelast (x :: msgs)) && is_dict (last msgs x).
Proof.
  revert x. induction msgs as [|y rest IH]; intros x.
  - simpl. reflexivity.
  - change (well_formed (x :: y :: rest)) with (role_ok x && well_formed (y :: rest)).
    rewrite IH.
    change (removelast (x :: y :: rest)) with (x :: removelast (y :: rest)).
    rewrite last_cons. simpl forallb. rewrite andb_assoc. reflexivity.
Qed.

Lemma py_get_dict (v : pyval) (k : string) (dflt r : pyval) :
  py_get v k dflt = Ok r -> is_dict v = true.
Proof. destruct v; simpl; try discriminate; reflexivity. Qed.

Lemma py_get_content (msg : pyval) :
  is_dict msg = true -> py_get msg "content" (PStr "") = Ok (turn_content msg).
Proof. destruct msg; simpl; try discriminate; reflexivity. Qed.

(** What the adapter computes on a non-empty list of well-formed turns. *)
Lemma messages_to_context_list (x : pyval) (msgs : list pyval) :
  well_formed (x :: msgs) = true ->
  messages_to_context py (PList (x :: msgs)) =
  Ok (PStr (join (nl ++ nl) (map (labeled_block py) (removelast (x :: msgs)))),
      turn_content (last msgs x)).
Proof.
  rewrite well_formed_split. intros H. apply andb_true_iff in H as [Hinit Hlast].
  unfold messages_to_context.
  change (truthy (PList (x :: msgs))) with true.
  cbv beta iota delta [negb py_slice_init py_index_last rbind].
  rewrite (context_parts_ok _ Hinit).
  rewrite (py_get_content _ Hlast). reflexivity.
Qed.

Lemma messages_to_context_returns (x : pyval) (msgs : list pyval) (r : pyval * pyval) :
  messages_to_context py (PList (x :: msgs)) = Ok r -> well_formed (x :: msgs) = true.
Proof.
  unfold messages_to_context.
  change (truthy (PList (x :: msgs))) with true.
  cbv beta iota delta [negb py_slice_init py_index_last rbind].
  destruct (context_parts py (removelast (x :: msgs))) as [parts|e] eqn:Hparts; [|discriminate].
  destruct (py_get (last msgs x) "content" (PStr "")) as [q|e] eqn:Hq; [|discriminate].
  intros _. rewrite well_formed_split.
  rewrite (context_parts_returns _ _ Hparts), (py_get_dict _ _ _ _ Hq). reflexivity.
Qed.

End AdapterFacts.

Section AdapterClaims.

Variable py : PyRuntime.

Lemma context_part_raises (msg : pyval) (e : exn) :
  context_part py msg = Raise e -> exn_class e = "AttributeError".
Proof.
  destruct msg as [| | | | |l|d|c a]; unfold context_part; simpl;
    try (intros H; injection H as <-; reflexivity).
  destruct (lookup "role" d) as [[| | | |r| | |]|]; simpl;
    try discriminate; intros H; injection H as <-; reflexivity.
Qed.

Lemma context_parts_raises (msgs : list pyval) (e : exn) :
  context_parts py msgs = Raise e -> exn_class e = "AttributeError".
Proof.
  induction msgs as [|m rest IH]; simpl; [discriminate|].
  destruct (context_part py m) as [part|e'] eqn:Hm; simpl.
  - destruct (context_parts py rest) as [ps|e'']; simpl; [discriminate|].
    intros H; injection H as <-. apply IH. reflexivity.
  - intros H; injection H as <-. apply (context_part_raises m e' Hm).
Qed.

Lemma messages_to_context_raises (msgs : list pyval) (e : exn) :
  messages_to_context py (PList msgs) = Raise e -> exn_class e = "AttributeError".
Proof.
  destruct msgs as [|x msgs]; [discriminate|].
  unfold messages_to_context.
  change (truthy (PList (x :: msgs))) with true.
  cbv beta iota delta [negb py_slice_init py_index_last rbind].
  destruct (context_parts py (removelast (x :: msgs))) as [parts|e'] eqn:Hparts.
  - destruct (last msgs x); simpl; try discriminate;
      intros H; injection H as <-; reflexivity.
  - intros H; injection H as <-. apply (context_parts_raises _ _ Hparts).
Qed.

(** C1 (amended): on the lists of turns in which every turn is a mapping
    and every turn but the last has a string under [role] or no [role],
    the empty list included, the adapter returns: two empty strings on the
    empty list, else the context made of the labeled blocks of the turns
    before the last, joined by a blank line, and as query the content of
    the last turn as given; a turn without [role] is labeled as a
    ["user"] turn and a turn without [content] has the empty string as
    content.  On every other list of turns it does not return: it raises
    an [AttributeError]. *)
Theorem C1_adapter_returns_iff_well_formed (msgs : list pyval) :
  (if well_formed msgs
   then messages_to_context py (PList msgs) =
          match msgs with
          | [] => Ok (PStr "", PStr "")
          | _ :: _ =>
              Ok (PStr (join (nl ++ nl) (map (labeled_block py) (removelast msgs))),
                  turn_content (last msgs PNone))
          end
   else exists e, messages_to_context py (PList msgs) = Raise e
                  /\ exn_class e = "AttributeError")
  /\ (forall d, lookup "role" d = None ->
        labeled_block py (PDict d)
        = "[" ++ str_upper py "user" ++ "]: " ++ format_value py (turn_content (PDict d)))
  /\ (forall d, lookup "content" d = None -> turn_content (PDict d) = PStr "")
  /\ (forall d c, lookup "content" d = Some c -> turn_content (PDict d) = c).
Proof.
  split; [|split; [|split]].
  - destruct (well_formed msgs) eqn:Hwf.
    + destruct msgs as [|x rest]; [reflexivity|].
      rewrite (messages_to_context_list py x rest Hwf), (last_cons PNone x rest).
      reflexivity.
    + destruct (messages_to_context py (PList msgs)) as [r|e] eqn:Hrun.
      * destruct msgs as [|x rest]; [discriminate Hwf|].
        rewrite (messages_to_context_returns py x rest r Hrun) in Hwf. discriminate Hwf.
      * exists e. split; [reflexivity|]. apply (messages_to_context_raises msgs e Hrun).
  - intros d H. unfold labeled_block, turn_role. rewrite H. reflexivity.
  - intros d H. unfold turn_content. rewrite H. reflexivity.
  - intros d c H. unfold turn_content. rewrite H. reflexivity.
Qed.

(** C2: on the empty sequence the adapter returns two empty strings; on
    a non-empty sequence of turns the query is the content of the last
    turn (the empty string when absent) and the context is the labeled
    blocks of the turns before it, in order, joined by a blank line; there
    are [len(turns) - 1] blocks. *)
Theorem C2_adapter_context_and_query (msgs : list pyval) :
  well_formed msgs = true ->
  messages_to_context py (PList msgs) =
    match msgs with
    | [] => Ok (PStr "", PStr "")
    | _ :: _ =>
        Ok (PStr (join (nl ++ nl) (map (labeled_block py) (removelast msgs))),
            turn_content (last msgs PNone))
    end
  /\ (msgs <> [] ->
      List.length (map (labeled_block py) (removelast msgs)) = (List.length msgs - 1)%nat).
Proof.
  intros H. split.
  - destruct msgs as [|x rest]; [reflexivity|].
    rewrite (messages_to_context_list py x rest H), (last_cons PNone x rest). reflexivity.
  - intros Hne. rewrite length_map.
    destruct msgs as [|x rest]; [contradiction|].
    rewrite removelast_cons_length. simpl. lia.
Qed.

End AdapterClaims.

(** A turn whose [role] is [null] makes the adapter raise, whatever the
    runtime. *)
Lemma C1_null_role_raises :
  messages_to_context example_runtime
    (PList [PDict [("role", PNone); ("content", PStr "Hi")]; turn "user" "Bye"])
  = Raise (AttributeError PNone "upper")
  /\ (forall py c q,
        messages_to_context py
          (PList [PDict [("role", PNone); ("content", PStr "Hi")]; turn "user" "Bye"])
        <> Ok (c, q)).
Proof. split; [reflexivity|]. intros py c q H. discriminate H. Qed.

Lemma C2_adapter_witness :
  well_formed [turn "user" "Hi"; turn "assistant" "Hello"; turn "user" "What's 2+2?"] = true
  /\ messages_to_context example_runtime
       (PList [turn "user" "Hi"; turn "assistant" "Hello"; turn "user" "What's 2+2?"])
     = Ok (PStr ("[USER]: Hi" ++ nl ++ nl ++ "[ASSISTANT]: Hello"), PStr "What's 2+2?").
Proof.
  split; [reflexivity|].
  exact (proj1 (C2_adapter_context_and_query example_runtime
    [turn "user" "Hi"; turn "assistant" "Hello"; turn "user" "What's 2+2?"] eq_refl)).
Defined.

(** ** The orchestrator *)

Lemma str_take_prefix (n : nat) (s : string) :
  exists rest, s = str_take n s ++ rest.
Proof.
  revert s. induction n as [|n IH]; intros s.
  - exists s. destruct s; reflexivity.
  - destruct s as [|c s]; [exists EmptyString; reflexivity|].
    destruct (IH s) as [rest Hrest]. exists rest. simpl. f_equal. exact Hrest.
Qed.

Lemma str_take_length (n : nat) (s : string) :
  String.length (str_take n s) = Nat.min n (String.length s).
Proof.
  revert s. induction n as [|n IH]; intros s; [reflexivity|].
  destruct s as [|c s]; [reflexivity|]. simpl. rewrite IH. reflexivity.
Qed.

Section OrchestratorClaims.

Variable py : PyRuntime.

Lemma full_prompt_is_str (context query : string) :
  exists p, full_prompt py (PStr context) (PStr query) = PStr p.
Proof. unfold full_prompt. destruct (truthy (PStr context)); eauto. Qed.

(** With the engine imported and string arguments, the [try] body gets
    to the engine call, and the rest is decided by what the engine
    returns. *)
Lemma run_rlm_try_engine (w : World) (eng : Engine) (context query : string)
      (config : RlmConfig) :
  import_rlm w = Ok eng ->
  run_rlm_try py w (PStr context) (PStr query) config =
  ((let? res := eng (engine_call py w (PStr context) (PStr query) config) in
    let? response := py_attr res "response" in
    let? _ := py_len response in
    Ok {| text := response; usage := usage_of res; metadata := metadata_of res |}),
   [EvEngine (engine_call py w (PStr context) (PStr query) config)]).
Proof.
  intros Himp. unfold run_rlm_try. rewrite Himp.
  set (call := engine_call py w (PStr context) (PStr query) config).
  assert (Hlen : exists n, py_len (call_prompt call) = Ok n).
  { destruct (full_prompt_is_str context query) as [p Hp].
    subst call. unfold engine_call. cbn [call_prompt]. rewrite Hp.
    eexists. reflexivity. }
  destruct Hlen as [n Hlen].
  unfold bind, lift, emit, ret. rewrite Hlen. cbn [py_len].
  destruct (eng call) as [res|e]; cbn [rbind]; [|reflexivity].
  destruct (py_attr res "response") as [response|e]; cbn [rbind]; [|reflexivity].
  destruct (py_len response); reflexivity.
Qed.

(** C3: with the engine unavailable the orchestrator returns the marked
    fallback, whose text embeds the first 100 characters of the query,
    and the engine is not called. *)
Theorem C3_engine_unavailable_fallback (w : World) (context : pyval) (query : string)
        (config : RlmConfig) (e : exn) :
  import_rlm w = Raise e ->
  exn_is_import_error e = true ->
  let head := str_take 100 query in
  let placeholder := "[RLM MOCK] Would process query: " ++ head ++ "..." in
  run_rlm_completion py w context (PStr query) config =
    (Ok {| text := PStr placeholder; usage := PNone;
           metadata := PDict [("mock", PBool true)] |},
     [EvOrchestrator context (PStr query) config])
  /\ contains placeholder head
  /\ (exists rest, query = head ++ rest)
  /\ String.length head = Nat.min 100 (String.length query).
Proof.
  intros Himp Hie head placeholder. split; [|split; [|split]].
  - unfold run_rlm_completion, run_rlm_try. rewrite Himp.
    unfold bind, try_except, lift, emit, ret. cbn. rewrite Hie. reflexivity.
  - exists "[RLM MOCK] Would process query: ", "...". reflexivity.
  - apply str_take_prefix.
  - apply str_take_length.
Qed.

(** C4: with a non-empty context the prompt is the two-section template
    around context and query, with an empty context it is the query; the
    engine is called with that prompt. *)
Theorem C4_prompt_construction (w : World) (eng : Engine) (context query : string)
        (config : RlmConfig) :
  import_rlm w = Ok eng ->
  full_prompt py (PStr context) (PStr query) =
    (if String.eqb context "" then PStr query
     else PStr ("Previous conversation context:" ++ nl ++ context ++ nl ++ nl
                ++ "Current request:" ++ nl ++ query))
  /\ exists call,
       snd (run_rlm_completion py w (PStr context) (PStr query) config) =
         [EvOrchestrator (PStr context) (PStr query) config; EvEngine call]
       /\ call_prompt call = full_prompt py (PStr context) (PStr query).
Proof.
  intros Himp. split.
  - unfold full_prompt. simpl. destruct (String.eqb context ""); reflexivity.
  - exists (engine_call py w (PStr context) (PStr query) config). split; [|reflexivity].
    unfold run_rlm_completion. rewrite (run_rlm_try_engine w eng context query config Himp).
    unfold bind, try_except, emit.
    destruct (let? res := eng _ in _) as [r|e]; [reflexivity|].
    destruct (exn_is_import_error e); reflexivity.
Qed.

(** The [or] chain of the source picks the first populated attribute. *)
Lemma or_chain_first_populated (us : pyval) (f g : string) :
  py_or (py_or (py_getattr us f (PInt 0)) (py_getattr us g (PInt 0))) (PInt 0)
  = first_populated [f; g] us.
Proof.
  destruct us as [| | | | | | |cls attrs]; try reflexivity.
  unfold py_or, py_getattr, first_populated.
  destruct (lookup f attrs) as [a|]; [destruct (truthy a) eqn:Ha|].
  - rewrite Ha. reflexivity.
  - destruct (lookup g attrs) as [b|]; [destruct (truthy b) eqn:Hb|];
      try rewrite Hb; reflexivity.
  - cbn [truthy Z.eqb negb].
    destruct (lookup g attrs) as [b|]; [destruct (truthy b) eqn:Hb|];
      try rewrite Hb; reflexivity.
Qed.

Lemma usage_of_populated (res us : pyval) :
  py_getattr res "usage_summary" PNone = us ->
  usage_of res =
    if truthy us then
      PDict [("promptTokens", first_populated ["prompt_tokens"; "input_tokens"] us);
             ("completionTokens", first_populated ["completion_tokens"; "output_tokens"] us)]
    else PDict [].
Proof.
  intros <-. unfold usage_of.
  destruct (truthy (py_getattr res "usage_summary" PNone)); [|reflexivity].
  rewrite !or_chain_first_populated. reflexivity.
Qed.

(** C6 (amended): on success, when the result carries a populated usage
    summary, the token counts of the usage are the first populated of
    [prompt_tokens], [input_tokens] and of [completion_tokens],
    [output_tokens] on it, [0] when there is none; when it carries none,
    the usage is the empty mapping.  The recursion depth and execution
    time of the metadata are the attributes [depth] and [execution_time]
    of the result, [0] when absent. *)
Theorem C6_result_normalization (w : World) (eng : Engine) (context query : string)
        (config : RlmConfig) (cls : string) (attrs : pydict) (response : pyval) (n : Z) :
  import_rlm w = Ok eng ->
  eng (engine_call py w (PStr context) (PStr query) config) = Ok (PObj cls attrs) ->
  lookup "response" attrs = Some response ->
  py_len response = Ok n ->
  let us := match lookup "usage_summary" attrs with Some u => u | None => PNone end in
  exists r,
    fst (run_rlm_completion py w (PStr context) (PStr query) config) = Ok r
    /\ text r = response
    /\ usage r =
         (if truthy us then
            PDict [("promptTokens", first_populated ["prompt_tokens"; "input_tokens"] us);
                   ("completionTokens",
                    first_populated ["completion_tokens"; "output_tokens"] us)]
          else PDict [])
    /\ metadata r =
         PDict [("recursionDepth",
                 match lookup "depth" attrs with Some v => v | None => PInt 0 end);
                ("executionTime",
                 match lookup "execution_time" attrs with Some v => v | None => PInt 0 end)].
Proof.
  intros Himp Heng Hresp Hlen us.
  unfold run_rlm_completion.
  rewrite (run_rlm_try_engine w eng context query config Himp), Heng.
  cbn [rbind py_attr]. rewrite Hresp. cbn [rbind]. rewrite Hlen. cbn [rbind].
  unfold bind, try_except, emit. cbn [fst].
  eexists. split; [reflexivity|]. cbn [text usage metadata].
  split; [reflexivity|]. split; [|reflexivity].
  apply usage_of_populated. reflexivity.
Qed.

(** A result without usage summary gets the empty usage mapping. *)
Lemma usage_of_without_summary (cls : string) (attrs : pydict) :
  lookup "usage_summary" attrs = None -> usage_of (PObj cls attrs) = PDict [].
Proof. intros H. unfold usage_of, py_getattr. rewrite H. reflexivity. Qed.


End OrchestratorClaims.

(** ** Configuration resolution *)

(** [int] reads a decimal numeral as the number it denotes. *)
Lemma lstrip_no_space (s : string) : no_space s = true -> lstrip s = s.
Proof.
  destruct s as [|c s]; [reflexivity|]. simpl.
  destruct (is_space c); [discriminate|reflexivity].
Qed.

Lemma no_space_rev_onto (s acc : string) :
  no_space s = true -> no_space acc = true -> no_space (str_rev_onto s acc) = true.
Proof.
  revert acc. induction s as [|c s IH]; intros acc Hs Hacc; [exact Hacc|].
  simpl in Hs. apply andb_true_iff in Hs as [Hc Hs].
  simpl. apply IH; [exact Hs|]. simpl. rewrite Hc, Hacc. reflexivity.
Qed.

Lemma str_rev_onto_twice (s a b : string) :
  str_rev_onto (str_rev_onto s a) b = str_rev_onto a (s ++ b).
Proof.
  revert a b. induction s as [|c s IH]; intros a b; [reflexivity|].
  simpl. rewrite IH. reflexivity.
Qed.

Lemma str_append_empty (s : string) : s ++ "" = s.
Proof. induction s as [|c s IH]; [reflexivity|]. simpl. rewrite IH. reflexivity. Qed.

Lemma strip_no_space (s : string) : no_space s = true -> strip s = s.
Proof.
  intros H. unfold strip.
  rewrite (lstrip_no_space s H).
  rewrite (lstrip_no_space _ (no_space_rev_onto s "" H eq_refl)).
  rewrite str_rev_onto_twice. simpl. apply str_append_empty.
Qed.

Lemma no_space_decimal (d : Decimal.uint) : no_space (NilEmpty.string_of_uint d) = true.
Proof. induction d; simpl; auto. Qed.

Ltac digit_step k :=
  match goal with
  | |- digits (String _ ?s) ?z _ = ?r => change (digits s (10 * z + k)%Z true = r)
  end.

Lemma digits_decimal (d : Decimal.uint) (acc : nat) (b : bool) :
  digits (NilEmpty.string_of_uint d) (Z.of_nat acc) b =
  match d with
  | Decimal.Nil => if b then Some (Z.of_nat acc) else None
  | _ => Some (Z.of_nat (Nat.of_uint_acc d acc))
  end.
Proof.
  revert acc b.
  induction d as [|d IH|d IH|d IH|d IH|d IH|d IH|d IH|d IH|d IH|d IH]; intros acc b;
    [reflexivity|..];
    cbn [NilEmpty.string_of_uint Nat.of_uint_acc];
    [digit_step 0%Z|digit_step 1%Z|digit_step 2%Z|digit_step 3%Z|digit_step 4%Z
    |digit_step 5%Z|digit_step 6%Z|digit_step 7%Z|digit_step 8%Z|digit_step 9%Z];
    match goal with
    | |- context [Nat.of_uint_acc d ?a] =>
        match goal with
        | |- context [digits _ ?z true] =>
            replace z with (Z.of_nat a) by (rewrite Nat.tail_mul_spec; lia)
        end
    end;
    rewrite IH; destruct d; reflexivity.
Qed.

Lemma digit_count_decimal (d : Decimal.uint) :
  digit_count (NilEmpty.string_of_uint d)
  = N.of_nat (String.length (NilEmpty.string_of_uint d)).
Proof.
  induction d; cbn [NilEmpty.string_of_uint String.length]; [reflexivity|..];
    match goal with
    | |- digit_count (String ?c ?s) = _ =>
        change (digit_count (String c s)) with (N.succ (digit_count s))
    end; rewrite IHd; lia.
Qed.

Lemma decimal_head (d : Decimal.uint) :
  d <> Decimal.Nil ->
  exists c rest,
    NilEmpty.string_of_uint d = String c rest
    /\ Ascii.eqb c "+"%char = false /\ Ascii.eqb c "-"%char = false.
Proof.
  destruct d; [contradiction|..]; intros _; do 2 eexists; repeat split.
Qed.

Lemma int_of_str_decimal (n : nat) :
  int_of_str (decimal n)
  = if (int_max_str_digits <? N.of_nat (String.length (decimal n)))%N
    then None else Some (Z.of_nat n).
Proof.
  unfold decimal.
  pose proof (DecimalNat.Unsigned.of_to n) as Hn. unfold Nat.of_uint in Hn.
  assert (Hnil : Nat.to_uint n <> Decimal.Nil).
  { intros E. rewrite E in Hn. cbn in Hn. subst n. discriminate E. }
  assert (Hd : digits (NilEmpty.string_of_uint (Nat.to_uint n)) 0 false
               = Some (Z.of_nat n)).
  { change 0%Z with (Z.of_nat 0). rewrite digits_decimal.
    destruct (Nat.to_uint n); [contradiction|rewrite Hn; reflexivity ..]. }
  destruct (decimal_head _ Hnil) as (c & rest & Hs & Hplus & Hminus).
  unfold int_of_str. rewrite (strip_no_space _ (no_space_decimal _)).
  rewrite Hs, Hplus, Hminus, <- Hs.
  unfold int_digits. rewrite digit_count_decimal, Hd. reflexivity.
Qed.

Lemma load_defaults_fields (environ : environ_t) (dflt : Defaults) :
  load_defaults environ = Some dflt ->
  PStr (DEFAULT_BACKEND dflt) = resolved None (env_str environ "RLM_BACKEND") (PStr "openrouter")
  /\ PStr (DEFAULT_MODEL dflt) =
       resolved None (env_str environ "RLM_MODEL") (PStr "google/gemini-3-flash-preview")
  /\ PInt (DEFAULT_MAX_RECURSION dflt) =
       resolved None (env_int environ "RLM_MAX_RECURSION") (PInt 10).
Proof.
  unfold load_defaults, getenv_default, env_str, env_int, resolved.
  destruct (getenv environ "RLM_MAX_RECURSION") as [s|].
  - destruct (int_of_str s) as [n|]; [|discriminate].
    intros H; injection H as <-. cbn.
    destruct (getenv environ "RLM_BACKEND"), (getenv environ "RLM_MODEL"); auto.
  - change (int_of_str "10") with (Some 10%Z).
    intros H; injection H as <-. cbn.
    destruct (getenv environ "RLM_BACKEND"), (getenv environ "RLM_MODEL"); auto.
Qed.

Lemma resolved_override (o p : option pyval) (h x : pyval) :
  x = resolved None p h ->
  match o with Some v => v | None => x end = resolved o p h.
Proof. intros ->. destruct o; reflexivity. Qed.

(** The defaults load when [RLM_MAX_RECURSION] is not set or holds a
    decimal numeral within the limit on digits. *)
Lemma load_defaults_loads (environ : environ_t) :
  (getenv environ "RLM_MAX_RECURSION" = None
   \/ exists n, getenv environ "RLM_MAX_RECURSION" = Some (decimal n)
                /\ (N.of_nat (String.length (decimal n)) <= int_max_str_digits)%N) ->
  exists dflt, load_defaults environ = Some dflt.
Proof.
  unfold load_defaults, getenv_default. intros [->|(n & -> & Hlen)].
  - change (int_of_str "10") with (Some 10%Z). eexists. reflexivity.
  - rewrite int_of_str_decimal.
    apply N.ltb_ge in Hlen. rewrite Hlen. eexists. reflexivity.
Qed.

(** C5: each field of the configuration of a request is the value under
    its key in [rlmConfig] when the key is there, else the default of the
    process taken from the environment, else the hardcoded value; no
    range is checked, and the engine is built with the depth as given.
    The default depth of the process is the number [RLM_MAX_RECURSION]
    denotes when it holds a decimal numeral, and [10] when it is not
    set. *)
Theorem C5_config_resolution (environ : environ_t) (dflt : Defaults) (d cfgd : pydict) :
  load_defaults environ = Some dflt ->
  match lookup "rlmConfig" d with Some v => v | None => PDict [] end = PDict cfgd ->
  exists config,
    parse_config dflt (PDict d) = Ok config
    /\ backend config =
         resolved (lookup "backend" cfgd) (env_str environ "RLM_BACKEND") (PStr "openrouter")
    /\ model_name config =
         resolved (lookup "modelName" cfgd) (env_str environ "RLM_MODEL")
                  (PStr "google/gemini-3-flash-preview")
    /\ max_recursion_depth config =
         resolved (lookup "maxRecursionDepth" cfgd) (env_int environ "RLM_MAX_RECURSION")
                  (PInt 10)
    /\ environment config = resolved (lookup "environment" cfgd) None (PStr "local")
    /\ (forall py w context query,
         call_max_depth (engine_call py w context query config) = max_recursion_depth config
         /\ call_backend (engine_call py w context query config) = backend config
         /\ lookup "model_name" (call_backend_kwargs (engine_call py w context query config))
            = Some (model_name config))
    /\ (forall n, getenv environ "RLM_MAX_RECURSION" = Some (decimal n) ->
          DEFAULT_MAX_RECURSION dflt = Z.of_nat n
          /\ max_recursion_depth config =
               match lookup "maxRecursionDepth" cfgd with
               | Some v => v
               | None => PInt (Z.of_nat n)
               end)
    /\ (getenv environ "RLM_MAX_RECURSION" = None ->
          DEFAULT_MAX_RECURSION dflt = 10%Z
          /\ max_recursion_depth config =
               match lookup "maxRecursionDepth" cfgd with
               | Some v => v
               | None => PInt 10
               end).
Proof.
  intros Hload Hcfg.
  destruct (load_defaults_fields environ dflt Hload) as (Hb & Hm & Hd).
  unfold parse_config. cbn [py_get rbind]. rewrite Hcfg. cbn [py_get rbind].
  eexists. split; [reflexivity|]. cbn [backend model_name max_recursion_depth environment].
  split; [apply resolved_override; assumption|].
  split; [apply resolved_override; assumption|].
  split; [apply resolved_override; assumption|].
  split; [reflexivity|].
  split; [intros py w context query; repeat split|].
  unfold env_int, resolved in Hd.
  split.
  - intros n Hn. rewrite Hn, int_of_str_decimal in Hd.
    unfold load_defaults, getenv_default in Hload.
    rewrite Hn, int_of_str_decimal in Hload.
    destruct (int_max_str_digits <? N.of_nat (String.length (decimal n)))%N;
      [discriminate Hload|].
    cbn in Hd. injection Hd as Hd. rewrite Hd.
    split; [reflexivity|]. destruct (lookup "maxRecursionDepth" cfgd); reflexivity.
  - intros Hn. rewrite Hn in Hd. injection Hd as Hd. rewrite Hd.
    split; [reflexivity|]. destruct (lookup "maxRecursionDepth" cfgd); reflexivity.
Qed.

(** ** Serialization of the response *)

(** Induction on a value, with the property in hand for the items of a
    list and the values of a mapping. *)
Lemma pyval_nested_ind (P : pyval -> Prop) :
  P PNone -> (forall b, P (PBool b)) -> (forall z, P (PInt z)) ->
  (forall f, P (PFloat f)) -> (forall s, P (PStr s)) ->
  (forall l, Forall P l -> P (PList l)) ->
  (forall d, Forall (fun kv => P (snd kv)) d -> P (PDict d)) ->
  (forall cls attrs, P (PObj cls attrs)) ->
  forall v, P v.
Proof.
  intros HN HB HI HF HS HL HD HO. fix IH 1.
  intros [|b|z|f|s|l|d|cls attrs];
    [apply HN|apply HB|apply HI|apply HF|apply HS| | |apply HO].
  - apply HL.
    refine ((fix go (l : list pyval) : Forall P l :=
               match l with
               | [] => Forall_nil P
               | x :: l' => Forall_cons x (IH x) (go l')
               end) l).
  - apply HD.
    refine ((fix go (d : pydict) : Forall (fun kv => P (snd kv)) d :=
               match d with
               | [] => Forall_nil _
               | kv :: d' => Forall_cons kv (IH (snd kv)) (go d')
               end) d).
Qed.

Lemma insert_entry_perm {A : Type} (k : string) (x : A) (l : list (string * A)) :
  Permutation ((k, x) :: l) (insert_entry k x l).
Proof.
  induction l as [|[k' x'] l IH]; cbn [insert_entry]; [reflexivity|].
  destruct (String.leb k k'); [reflexivity|].
  rewrite perm_swap. constructor. exact IH.
Qed.

Lemma sort_entries_perm {A : Type} (l : list (string * A)) :
  Permutation l (sort_entries l).
Proof.
  induction l as [|[k x] l IH]; cbn [sort_entries]; [reflexivity|].
  rewrite <- insert_entry_perm. constructor. exact IH.
Qed.

Lemma insert_entry_map {A B : Type} (f : A -> B) (k : string) (x : A)
      (l : list (string * A)) :
  insert_entry k (f x) (map (fun kv => let '(k', y) := kv in (k', f y)) l)
  = map (fun kv => let '(k', y) := kv in (k', f y)) (insert_entry k x l).
Proof.
  induction l as [|[k' x'] l IH]; cbn [insert_entry map]; [reflexivity|].
  destruct (String.leb k k'); cbn [map]; [reflexivity|]. rewrite IH. reflexivity.
Qed.

Lemma sort_entries_map {A B : Type} (f : A -> B) (l : list (string * A)) :
  sort_entries (map (fun kv => let '(k, y) := kv in (k, f y)) l)
  = map (fun kv => let '(k, y) := kv in (k, f y)) (sort_entries l).
Proof.
  induction l as [|[k x] l IH]; cbn [sort_entries map]; [reflexivity|].
  rewrite IH. apply insert_entry_map.
Qed.

Lemma sequence_ok {A : Type} (l : list A) : sequence (map Ok l) = Ok l.
Proof. induction l as [|x l IH]; cbn; [|rewrite IH]; reflexivity. Qed.

Lemma sequence_entries_ok {A : Type} (l : list (string * A)) :
  sequence_entries (map (fun kv => let '(k, y) := kv in (k, Ok y)) l) = Ok l.
Proof. induction l as [|[k x] l IH]; cbn; [|rewrite IH]; reflexivity. Qed.

Section Serialization.

Variable py : PyRuntime.

(** On a value of JSON [asdict] rebuilds the same value. *)
Lemma asdict_inner_object_free (v : pyval) :
  object_free v = true -> asdict_inner py v = v.
Proof.
  induction v as [| | | | |l IH|d IH|cls attrs] using pyval_nested_ind;
    cbn [object_free asdict_inner]; try reflexivity; [| |discriminate].
  - intros H. f_equal. induction IH as [|x l Hx _ IHl]; [reflexivity|].
    cbn [forallb] in H. apply andb_true_iff in H as [H1 H2].
    cbn [map]. rewrite (Hx H1), (IHl H2). reflexivity.
  - intros H. f_equal. induction IH as [|[k x] d Hx _ IHd]; [reflexivity|].
    cbn [forallb] in H. apply andb_true_iff in H as [H1 H2].
    cbn [map]. cbn [snd] in Hx. rewrite (Hx H1), (IHd H2). reflexivity.
Qed.

(** A value of JSON is written with its keys sorted, and nothing else
    changed. *)
Lemma json_written_object_free (v : pyval) :
  object_free v = true -> json_written py v = Ok (sort_keys v).
Proof.
  induction v as [| | | | |l IH|d IH|cls attrs] using pyval_nested_ind;
    cbn [object_free json_written sort_keys]; try reflexivity; [| |discriminate].
  - intros H.
    assert (Hmap : map (json_written py) l = map Ok (map sort_keys l)).
    { induction IH as [|x l Hx _ IHl]; [reflexivity|].
      cbn [forallb] in H. apply andb_true_iff in H as [H1 H2].
      cbn [map]. rewrite (Hx H1), (IHl H2). reflexivity. }
    rewrite Hmap, sequence_ok. reflexivity.
  - intros H.
    assert (Hmap : map (fun kv => let '(k, x) := kv in (k, json_written py x)) d
                   = map (fun kv => let '(k, y) := kv in (k, Ok y))
                       (map (fun kv => let '(k, x) := kv in (k, sort_keys x)) d)).
    { induction IH as [|[k x] d Hx _ IHd]; [reflexivity|].
      cbn [forallb] in H. apply andb_true_iff in H as [H1 H2].
      cbn [map]. cbn [snd] in Hx. rewrite (Hx H1), (IHd H2). reflexivity. }
    rewrite Hmap, sort_entries_map, sequence_entries_ok. reflexivity.
Qed.

(** Sorting the keys only reorders the entries of the mappings. *)
Lemma reordered_sort_keys (v : pyval) : reordered v (sort_keys v).
Proof.
  induction v as [| | | | |l IH|d IH|cls attrs] using pyval_nested_ind;
    cbn [sort_keys]; try apply reordered_refl.
  - apply reordered_list.
    induction IH as [|x l Hx _ IHl]; cbn [map]; constructor; assumption.
  - apply (reordered_dict d (map (fun kv => let '(k, x) := kv in (k, sort_keys x)) d)).
    + induction IH as [|[k x] d Hx _ IHd]; cbn [map]; constructor; [|assumption].
      split; [reflexivity|exact Hx].
    + apply sort_entries_perm.
Qed.

(** C8 (amended): for a response whose fields hold values of JSON, the
    mapping [asdict] builds has the three keys [text], [usage],
    [metadata], each holding the field unaltered, an absent optional field
    as [None]; the constructor of the dataclass gives the same response
    back from it.  What is written is that mapping with the keys of every
    mapping sorted and none dropped, an absent optional field as [null];
    read back, it is the same response up to the order of the keys. *)
Theorem C8_serialization_round_trip (r : CompletionResponse) :
  object_free (text r) && object_free (usage r) && object_free (metadata r) = true ->
  asdict py r = PDict [("text", text r); ("usage", usage r); ("metadata", metadata r)]
  /\ from_dict (asdict py r) = Some r
  /\ jsonify py (asdict py r)
     = Ok (PDict [("metadata", sort_keys (metadata r));
                  ("text", sort_keys (text r));
                  ("usage", sort_keys (usage r))])
  /\ from_dict (PDict [("metadata", sort_keys (metadata r));
                       ("text", sort_keys (text r));
                       ("usage", sort_keys (usage r))])
     = Some {| text := sort_keys (text r);
               usage := sort_keys (usage r);
               metadata := sort_keys (metadata r) |}
  /\ reordered (text r) (sort_keys (text r))
  /\ reordered (usage r) (sort_keys (usage r))
  /\ reordered (metadata r) (sort_keys (metadata r))
  /\ (usage r = PNone -> sort_keys (usage r) = PNone)
  /\ (metadata r = PNone -> sort_keys (metadata r) = PNone).
Proof.
  intros H. apply andb_true_iff in H as [H Hm]. apply andb_true_iff in H as [Ht Hu].
  assert (Hdict : asdict py r
                  = PDict [("text", text r); ("usage", usage r); ("metadata", metadata r)]).
  { unfold asdict. rewrite !asdict_inner_object_free by assumption. reflexivity. }
  split; [exact Hdict|]. rewrite Hdict.
  split; [destruct r; reflexivity|].
  split.
  { unfold jsonify. cbn [json_written map].
    rewrite !json_written_object_free by assumption. reflexivity. }
  split; [reflexivity|].
  repeat split; try apply reordered_sort_keys; intros ->; reflexivity.
Qed.

End Serialization.

(** ** The endpoint *)

Section EndpointClaims.

Variable py : PyRuntime.
Variable dflt : Defaults.
Variable w : World.

Lemma bind_lift_ok {A B : Type} (a : A) (f : A -> M B) :
  bind (lift (Ok a)) f = f a.
Proof. unfold bind, lift. destruct (f a) as [r t]. reflexivity. Qed.

Lemma truthy_dict (d : pydict) : d <> [] -> truthy (PDict d) = true.
Proof. destruct d; [contradiction|reflexivity]. Qed.

(** The handler turns whatever the [try] body raises into a 500. *)
Lemma completion_catches (req : result pyval) (e : exn) :
  fst (completion_try py dflt w req) = Raise e ->
  fst (completion py dflt w req) =
    Ok {| status := 500; body := error_body (exn_str e) |}.
Proof.
  unfold completion, try_except.
  destruct (completion_try py dflt w req) as [[resp|e'] t]; cbn [fst]; [discriminate|].
  intros H; injection H as ->. reflexivity.
Qed.

Lemma completion_returns (req : result pyval) :
  exists resp, fst (completion py dflt w req) = Ok resp
    /\ match fst (completion_try py dflt w req) with
       | Ok r => resp = r
       | Raise e => resp = {| status := 500; body := error_body (exn_str e) |}
       end.
Proof.
  unfold completion, try_except, ret.
  destruct (completion_try py dflt w req) as [[resp|e] t]; cbn [fst]; eauto.
Qed.

(** The [try] body returns with status 400 or 200 only. *)
Lemma completion_try_status (req : result pyval) (resp : http_response) :
  fst (completion_try py dflt w req) = Ok resp ->
  status resp = 400%Z \/ status resp = 200%Z.
Proof.
  unfold completion_try. destruct req as [data|e]; [|discriminate].
  unfold lift, bind at 1.
  destruct (negb (truthy data)).
  { cbn. intros H; injection H as <-. left; reflexivity. }
  destruct (py_get data "messages" (PList [])) as [messages|e]; [|discriminate].
  unfold bind at 1.
  destruct (negb (truthy messages)).
  { cbn. intros H; injection H as <-. left; reflexivity. }
  destruct (parse_config dflt data) as [config|e]; [|discriminate].
  unfold bind at 1.
  destruct (py_len messages) as [n|e]; [|discriminate].
  unfold bind at 1.
  destruct (messages_to_context py messages) as [cq|e]; [|discriminate].
  unfold bind at 1.
  destruct (run_rlm_completion py w (fst cq) (snd cq) config) as [[response|e] t];
    [|discriminate].
  unfold bind at 1.
  destruct (jsonify py (asdict py response)) as [b|e]; [|discriminate].
  cbn. intros H; injection H as <-. right; reflexivity.
Qed.

(** The answer 400 "No JSON body provided" is given to no other request
    than one whose body [get_json] returned, and returned as a false
    value. *)
Lemma answered_no_json_body (req : result pyval) :
  fst (completion py dflt w req)
  = Ok {| status := 400; body := error_body "No JSON body provided" |} ->
  exists data, req = Ok data /\ truthy data = false.
Proof.
  destruct (completion_returns req) as (resp & Hresp & Hcase).
  rewrite Hresp. intros H; injection H as ->.
  revert Hcase. unfold completion_try. destruct req as [data|e]; [|cbn; discriminate].
  unfold lift, bind at 1.
  destruct (truthy data) eqn:Hdata; cbn [negb]; [|eauto].
  destruct (py_get data "messages" (PList [])) as [messages|e]; [|cbn; discriminate].
  unfold bind at 1.
  destruct (negb (truthy messages)); [cbn; discriminate|].
  destruct (parse_config dflt data) as [config|e]; [|cbn; discriminate].
  unfold bind at 1.
  destruct (py_len messages) as [n|e]; [|cbn; discriminate].
  unfold bind at 1.
  destruct (messages_to_context py messages) as [cq|e]; [|cbn; discriminate].
  unfold bind at 1.
  destruct (run_rlm_completion py w (fst cq) (snd cq) config) as [[response|e] t];
    [|cbn; discriminate].
  unfold bind at 1.
  destruct (jsonify py (asdict py response)) as [b|e]; cbn; discriminate.
Qed.

Lemma falsy_body_is_a_400 (data : pyval) :
  truthy data = false ->
  completion py dflt w (Ok data) =
    (Ok {| status := 400; body := error_body "No JSON body provided" |}, []).
Proof.
  intros H. unfold completion, completion_try, try_except, bind, lift, ret.
  rewrite H. reflexivity.
Qed.

(** C9 (the code departs from the claim): a request with no JSON body
    is not answered 400 with "No JSON body provided".  Sent with no body,
    so without the JSON content type, or with the content type and empty
    data, it makes [get_json] raise inside the [try], and the handler
    answers 500 with the message of that exception, the orchestrator not
    entered.  The answer 400 "No JSON body provided" is given exactly to
    the bodies that are the JSON text of a false value ([null], [{}],
    [[]], [0], [false], the empty string). *)
Theorem C9_missing_body_is_a_500 (wz : Werkzeug) :
  completion py dflt w (get_json wz NoJsonContentType)
  = (Ok {| status := 500; body := error_body (exn_str (unsupported_media_type wz)) |}, [])
  /\ completion py dflt w (get_json wz NotJsonData)
     = (Ok {| status := 500; body := error_body (exn_str (bad_request wz)) |}, [])
  /\ (forall s,
        fst (completion py dflt w (get_json wz s))
        = Ok {| status := 400; body := error_body "No JSON body provided" |}
        <-> exists v, s = JsonData v /\ truthy v = false).
Proof.
  split; [reflexivity|]. split; [reflexivity|].
  intros s. split.
  - intros H. destruct (answered_no_json_body _ H) as (data & Hreq & Hdata).
    destruct s as [| |v]; try discriminate Hreq.
    injection Hreq as ->. exists data. split; [reflexivity|exact Hdata].
  - intros (v & -> & Hv). cbn [get_json]. rewrite (falsy_body_is_a_400 v Hv). reflexivity.
Qed.

(** X21: of the bodies [get_json] returns, a false one is answered 400
    with "No JSON body provided" and a mapping whose messages are missing
    or false 400 with "No messages provided", both with the orchestrator
    not entered; whatever the [try] body raises is answered 500 with the
    message of the exception, and no request is answered with another
    status than 200, 400 and 500. *)
Theorem validation_of_parsed_bodies :
  (forall data, truthy data = false ->
     completion py dflt w (Ok data) =
       (Ok {| status := 400; body := error_body "No JSON body provided" |}, []))
  /\ (forall d, d <> [] ->
        truthy (match lookup "messages" d with Some m => m | None => PList [] end) = false ->
        completion py dflt w (Ok (PDict d)) =
          (Ok {| status := 400; body := error_body "No messages provided" |}, []))
  /\ (forall req e, fst (completion_try py dflt w req) = Raise e ->
        fst (completion py dflt w req) =
          Ok {| status := 500; body := error_body (exn_str e) |})
  /\ (forall req, exists resp, fst (completion py dflt w req) = Ok resp
        /\ (status resp = 200 \/ status resp = 400 \/ status resp = 500)%Z).
Proof.
  split; [|split; [|split]].
  - intros data H. unfold completion, completion_try, try_except, bind, lift, ret.
    rewrite H. reflexivity.
  - intros d Hd H. unfold completion, completion_try, try_except, lift.
    unfold bind at 1. rewrite (truthy_dict d Hd). cbn [negb py_get].
    unfold bind at 1. rewrite H. reflexivity.
  - apply completion_catches.
  - intros req. destruct (completion_returns req) as (resp & Hresp & Hcase).
    exists resp. split; [exact Hresp|].
    destruct (fst (completion_try py dflt w req)) as [r|e] eqn:Htry.
    + subst r. destruct (completion_try_status req resp Htry); auto.
    + subst resp. auto.
Qed.

Lemma same_but_model_lookup (d1 d2 : pydict) (k : string) :
  same_but_model d1 d2 -> String.eqb k "model" = false -> lookup k d1 = lookup k d2.
Proof.
  intros H Hk. apply H. intros ->. rewrite String.eqb_refl in Hk. discriminate.
Qed.

(** C10 (amended): two non-empty request bodies that differ at most
    under [model] get the same configuration, the same context and query,
    the same response and the same calls. *)
Theorem C10_model_field_ignored (d1 d2 : pydict) :
  d1 <> [] -> d2 <> [] -> same_but_model d1 d2 ->
  parse_config dflt (PDict d1) = parse_config dflt (PDict d2)
  /\ py_get (PDict d1) "messages" (PList []) = py_get (PDict d2) "messages" (PList [])
  /\ completion py dflt w (Ok (PDict d1)) = completion py dflt w (Ok (PDict d2)).
Proof.
  intros H1 H2 Hsame.
  assert (Hm : lookup "messages" d1 = lookup "messages" d2)
    by (apply same_but_model_lookup; [assumption|reflexivity]).
  assert (Hc : lookup "rlmConfig" d1 = lookup "rlmConfig" d2)
    by (apply same_but_model_lookup; [assumption|reflexivity]).
  assert (Hp : parse_config dflt (PDict d1) = parse_config dflt (PDict d2)).
  { unfold parse_config. cbn [py_get]. rewrite Hc. reflexivity. }
  split; [exact Hp|]. split; [cbn [py_get]; rewrite Hm; reflexivity|].
  unfold completion. f_equal. unfold completion_try.
  rewrite !bind_lift_ok, Hp, (truthy_dict d1 H1), (truthy_dict d2 H2).
  cbn [py_get]. rewrite Hm. reflexivity.
Qed.

End EndpointClaims.

(** ** The claims at concrete inputs *)

Lemma C3_fallback_witness :
  import_rlm world_without_engine = Raise no_module
  /\ run_rlm_completion example_runtime world_without_engine
       (PStr "[USER]: Hi") (PStr "What's 2+2?") hardcoded_config
     = (Ok {| text := PStr "[RLM MOCK] Would process query: What's 2+2?...";
              usage := PNone;
              metadata := PDict [("mock", PBool true)] |},
        [EvOrchestrator (PStr "[USER]: Hi") (PStr "What's 2+2?") hardcoded_config]).
Proof.
  split; [reflexivity|].
  exact (proj1 (C3_engine_unavailable_fallback example_runtime world_without_engine
                  (PStr "[USER]: Hi") "What's 2+2?" hardcoded_config no_module
                  eq_refl eq_refl)).
Defined.

Lemma C4_prompt_witness :
  import_rlm (world_with bare_engine) = Ok bare_engine
  /\ full_prompt example_runtime (PStr "[USER]: Hi") (PStr "What's 2+2?")
     = PStr ("Previous conversation context:" ++ nl ++ "[USER]: Hi" ++ nl ++ nl
             ++ "Current request:" ++ nl ++ "What's 2+2?")
  /\ full_prompt example_runtime (PStr "") (PStr "What's 2+2?") = PStr "What's 2+2?".
Proof.
  split; [reflexivity|]. split.
  - exact (proj1 (C4_prompt_construction example_runtime (world_with bare_engine) bare_engine
                    "[USER]: Hi" "What's 2+2?" hardcoded_config eq_refl)).
  - exact (proj1 (C4_prompt_construction example_runtime (world_with bare_engine) bare_engine
                    "" "What's 2+2?" hardcoded_config eq_refl)).
Defined.

Lemma C5_config_witness :
  load_defaults [("RLM_MODEL", "gpt-4o"); ("RLM_MAX_RECURSION", "25")]
  = Some {| DEFAULT_BACKEND := "openrouter"; DEFAULT_MODEL := "gpt-4o";
            DEFAULT_MAX_RECURSION := 25 |}
  /\ exists config,
       parse_config {| DEFAULT_BACKEND := "openrouter"; DEFAULT_MODEL := "gpt-4o";
                       DEFAULT_MAX_RECURSION := 25 |}
         (PDict [("messages", PList [turn "user" "Hi"]);
                 ("rlmConfig", PDict [("backend", PStr "openai")])])
       = Ok config
       /\ backend config = PStr "openai"
       /\ model_name config = PStr "gpt-4o"
       /\ max_recursion_depth config = PInt 25
       /\ environment config = PStr "local".
Proof.
  split; [reflexivity|].
  destruct (C5_config_resolution [("RLM_MODEL", "gpt-4o"); ("RLM_MAX_RECURSION", "25")]
              {| DEFAULT_BACKEND := "openrouter"; DEFAULT_MODEL := "gpt-4o";
                 DEFAULT_MAX_RECURSION := 25 |}
              [("messages", PList [turn "user" "Hi"]);
               ("rlmConfig", PDict [("backend", PStr "openai")])]
              [("backend", PStr "openai")]
              eq_refl eq_refl)
    as (config & Hparse & Hb & Hm & _ & He & _ & Hdec & _).
  exists config. repeat split; try assumption.
  exact (proj2 (Hdec 25%nat eq_refl)).
Defined.

(** A depth out of any range, given by the request, is the depth of the
    configuration. *)
Example config_depth_is_not_checked :
  parse_config hardcoded_defaults
    (PDict [("messages", PList [turn "user" "Hi"]);
            ("rlmConfig", PDict [("maxRecursionDepth", PInt (-3))])])
  = Ok {| backend := PStr "openrouter";
          model_name := PStr "google/gemini-3-flash-preview";
          max_recursion_depth := PInt (-3);
          environment := PStr "local" |}.
Proof. reflexivity. Qed.

(** [int] strips the white space of ASCII only: a unit separator before
    the digits makes it raise, and the module does not load. *)
Example load_defaults_unit_separator :
  load_defaults [("RLM_MAX_RECURSION", String (ascii_of_nat 28) "12")] = None
  /\ load_defaults [("RLM_MAX_RECURSION", " 12 ")]
     = Some {| DEFAULT_BACKEND := "openrouter";
               DEFAULT_MODEL := "google/gemini-3-flash-preview";
               DEFAULT_MAX_RECURSION := 12 |}.
Proof. split; reflexivity. Qed.

(** A result without usage summary: the usage of the response has no
    token counts at all, not counts of [0]. *)
Lemma C6_no_usage_summary_no_counts :
  fst (run_rlm_completion example_runtime (world_with bare_engine)
         (PStr "") (PStr "What's 2+2?") hardcoded_config)
  = Ok {| text := PStr "4";
          usage := PDict [];
          metadata := PDict [("recursionDepth", PInt 0); ("executionTime", PInt 0)] |}
  /\ lookup "promptTokens" [] = None.
Proof. split; reflexivity. Qed.

Lemma C6_normalization_witness :
  exists r,
    fst (run_rlm_completion example_runtime (world_with metered_engine)
           (PStr "") (PStr "What's 2+2?") hardcoded_config) = Ok r
    /\ text r = PStr "4"
    /\ usage r = PDict [("promptTokens", PInt 12); ("completionTokens", PInt 7)]
    /\ metadata r = PDict [("recursionDepth", PInt 2); ("executionTime", PInt 0)].
Proof.
  exact (C6_result_normalization example_runtime (world_with metered_engine) metered_engine
           "" "What's 2+2?" hardcoded_config "RLMChatCompletion"
           [("response", PStr "4");
            ("usage_summary",
             PObj "UsageSummary"
               [("prompt_tokens", PInt 0); ("input_tokens", PInt 12);
                ("output_tokens", PInt 7)]);
            ("depth", PInt 2)]
           (PStr "4") 1%Z eq_refl eq_refl eq_refl eq_refl).
Defined.



Lemma C8_round_trip_witness :
  asdict example_runtime
    {| text := PStr "4";
       usage := PDict [("promptTokens", PInt 12); ("completionTokens", PInt 7)];
       metadata := PNone |}
  = PDict [("text", PStr "4");
           ("usage", PDict [("promptTokens", PInt 12); ("completionTokens", PInt 7)]);
           ("metadata", PNone)]
  /\ jsonify example_runtime
       (asdict example_runtime
          {| text := PStr "4";
             usage := PDict [("promptTokens", PInt 12); ("completionTokens", PInt 7)];
             metadata := PNone |})
     = Ok (PDict [("metadata", PNone);
                  ("text", PStr "4");
                  ("usage", PDict [("completionTokens", PInt 7); ("promptTokens", PInt 12)])]).
Proof.
  destruct (C8_serialization_round_trip example_runtime
              {| text := PStr "4";
                 usage := PDict [("promptTokens", PInt 12); ("completionTokens", PInt 7)];
                 metadata := PNone |} eq_refl)
    as (Hdict & _ & Hjson & _).
  split; [exact Hdict|exact Hjson].
Defined.

(** The response of the fallback, as the endpoint writes it: [usage] is
    there, and is [null]. *)
Lemma C8_absent_usage_is_written_as_null :
  fst (completion example_runtime hardcoded_defaults world_without_engine
         (Ok (PDict [("messages", PList [turn "user" "Hi"])])))
  = Ok {| status := 200;
          body := PDict [("metadata", PDict [("mock", PBool true)]);
                         ("text", PStr "[RLM MOCK] Would process query: Hi...");
                         ("usage", PNone)] |}
  /\ lookup "usage"
       [("metadata", PDict [("mock", PBool true)]);
        ("text", PStr "[RLM MOCK] Would process query: Hi...");
        ("usage", PNone)] = Some PNone.
Proof. split; reflexivity. Qed.

(** A request sent with no body at all, and one sent as JSON with empty
    data: both are answered 500. *)
Example endpoint_without_body :
  completion example_runtime hardcoded_defaults (world_with bare_engine)
    (get_json werkzeug NoJsonContentType)
  = (Ok {| status := 500;
           body := error_body
             "415 Unsupported Media Type: Did not attempt to load JSON data because the request Content-Type was not 'application/json'." |},
     [])
  /\ completion example_runtime hardcoded_defaults (world_with bare_engine)
       (get_json werkzeug NotJsonData)
     = (Ok {| status := 500;
              body := error_body
                "400 Bad Request: The browser (or proxy) sent a request that this server could not understand." |},
        []).
Proof. split; reflexivity. Qed.

Lemma validation_of_parsed_bodies_witness :
  completion example_runtime hardcoded_defaults (world_with bare_engine) (Ok PNone)
  = (Ok {| status := 400; body := error_body "No JSON body provided" |}, [])
  /\ completion example_runtime hardcoded_defaults (world_with bare_engine)
       (Ok (PDict [("messages", PList [])]))
     = (Ok {| status := 400; body := error_body "No messages provided" |}, [])
  /\ completion example_runtime hardcoded_defaults (world_with bare_engine)
       (Ok (PDict [("model", PStr "gpt-4o")]))
     = (Ok {| status := 400; body := error_body "No messages provided" |}, []).
Proof.
  pose proof (validation_of_parsed_bodies example_runtime hardcoded_defaults
                (world_with bare_engine)) as (Hbody & Hmsgs & _).
  split; [exact (Hbody PNone eq_refl)|]. split.
  - refine (Hmsgs [("messages", PList [])] _ eq_refl). discriminate.
  - refine (Hmsgs [("model", PStr "gpt-4o")] _ eq_refl). discriminate.
Defined.

(** The empty body and the body that holds only [model] differ at most
    under [model], and are answered differently. *)
Lemma C10_empty_body_differs :
  same_but_model [] [("model", PStr "gpt-4o")]
  /\ fst (completion example_runtime hardcoded_defaults (world_with bare_engine)
            (Ok (PDict [])))
     = Ok {| status := 400; body := error_body "No JSON body provided" |}
  /\ fst (completion example_runtime hardcoded_defaults (world_with bare_engine)
            (Ok (PDict [("model", PStr "gpt-4o")])))
     = Ok {| status := 400; body := error_body "No messages provided" |}.
Proof.
  split; [|split; reflexivity].
  intros k Hk. simpl. destruct (String.eqb k "model") eqn:E; [|reflexivity].
  apply String.eqb_eq in E. contradiction.
Qed.

Lemma C10_model_witness :
  completion example_runtime hardcoded_defaults (world_with metered_engine)
    (Ok (PDict [("messages", PList [turn "user" "Hi"])]))
  = completion example_runtime hardcoded_defaults (world_with metered_engine)
      (Ok (PDict [("model", PStr "gpt-4o"); ("messages", PList [turn "user" "Hi"])])).
Proof.
  refine (proj2 (proj2 (C10_model_field_ignored example_runtime hardcoded_defaults
                          (world_with metered_engine)
                          [("messages", PList [turn "user" "Hi"])]
                          [("model", PStr "gpt-4o"); ("messages", PList [turn "user" "Hi"])]
                          _ _ _))); try discriminate.
  intros k Hk. simpl. destruct (String.eqb k "model") eqn:E; [|reflexivity].
  apply String.eqb_eq in E. contradiction.
Defined.

(** * Further properties of the code *)

(** ** The message adapter beyond lists of well-formed turns *)

Section AdapterMore.

Variable py : PyRuntime.

Lemma removelast_snoc (msgs : list pyval) (x : pyval) :
  removelast (msgs ++ [x])%list = msgs.
Proof.
  induction msgs as [|y rest IH]; [reflexivity|].
  change ((y :: rest) ++ [x])%list with (y :: (rest ++ [x])%list).
  destruct (rest ++ [x])%list as [|z l] eqn:E.
  - destruct rest; discriminate E.
  - change (removelast (y :: z :: l)) with (y :: removelast (z :: l)).
    rewrite IH. reflexivity.
Qed.

Lemma py_index_last_snoc (msgs : list pyval) (x : pyval) :
  py_index_last (PList (msgs ++ [x])%list) = Ok x.
Proof.
  destruct (msgs ++ [x])%list as [|y l] eqn:E.
  - destruct msgs; discriminate E.
  - cbn [py_index_last]. f_equal.
    rewrite <- (last_cons PNone y l), <- E. apply last_last.
Qed.

Lemma truthy_snoc (msgs : list pyval) (x : pyval) :
  truthy (PList (msgs ++ [x])%list) = true.
Proof. destruct msgs; reflexivity. Qed.

(** The adapter on a sequence given as the turns of the loop and the
    last turn. *)
Lemma messages_to_context_snoc (msgs : list pyval) (x : pyval) :
  messages_to_context py (PList (msgs ++ [x])%list) =
  (let? parts := context_parts py msgs in
   let? query := py_get x "content" (PStr "") in
   Ok (PStr (join (nl ++ nl) parts), query)).
Proof.
  unfold messages_to_context.
  rewrite truthy_snoc, py_index_last_snoc.
  cbn [negb py_slice_init rbind]. rewrite removelast_snoc. reflexivity.
Qed.

Lemma context_parts_app (a b : list pyval) :
  context_parts py (a ++ b)%list =
  (let? pa := context_parts py a in
   let? pb := context_parts py b in
   Ok (pa ++ pb)%list).
Proof.
  induction a as [|m rest IH]; cbn [app context_parts rbind].
  - destruct (context_parts py b); reflexivity.
  - destruct (context_part py m) as [part|e]; cbn [rbind]; [|reflexivity].
    rewrite IH. destruct (context_parts py rest) as [pa|e]; cbn [rbind]; [|reflexivity].
    destruct (context_parts py b); reflexivity.
Qed.

Lemma chars_are_strings (s : string) : Forall (fun v => is_dict v = false) (chars s).
Proof. induction s; constructor; [reflexivity|assumption]. Qed.

Lemma context_parts_not_dict (msgs : list pyval) (parts : list string) :
  Forall (fun v => is_dict v = false) msgs ->
  context_parts py msgs = Ok parts -> msgs = [].
Proof.
  intros Hall Hparts. destruct msgs as [|m rest]; [reflexivity|].
  apply context_parts_returns in Hparts. cbn [forallb] in Hparts.
  apply andb_true_iff in Hparts as [Hm _].
  inversion Hall as [|? ? Hnot _]; subst.
  destruct m; try discriminate Hm. discriminate Hnot.
Qed.

(** A true value on which the adapter returns is a list. *)
Lemma messages_to_context_truthy_list (messages : pyval) (r : pyval * pyval) :
  truthy messages = true ->
  messages_to_context py messages = Ok r ->
  exists x rest, messages = PList (x :: rest).
Proof.
  unfold messages_to_context. intros Ht. rewrite Ht. cbn [negb]. intros H.
  destruct messages as [|b|z|f|s|l|d|cls attrs]; cbn [py_slice_init rbind] in H;
    try discriminate H.
  - exfalso.
    destruct (context_parts py (removelast (chars s))) as [parts|e] eqn:Hparts;
      cbn [rbind] in H; [|discriminate H].
    destruct s as [|c s']; [discriminate Ht|].
    assert (Hinit : removelast (chars (String c s')) = []).
    { apply (context_parts_not_dict _ parts); [|exact Hparts].
      pose proof (chars_are_strings (String c s')) as Hall.
      clear -Hall. revert Hall. generalize (chars (String c s')).
      induction l as [|x l IH]; intros Hall; [constructor|].
      destruct l as [|y l']; [constructor|].
      change (removelast (x :: y :: l')) with (x :: removelast (y :: l')).
      inversion Hall; subst. constructor; [assumption|]. apply IH. assumption. }
    cbn [chars] in Hinit. destruct (chars s') eqn:Hs'; [|discriminate Hinit].
    cbn [py_index_last chars] in H. rewrite Hs' in H. cbn in H. discriminate H.
  - destruct l as [|x rest]; [discriminate Ht|]. eauto.
Qed.

(** X1: the adapter returns only on a false value, with two empty
    strings, or on a non-empty list of well-formed turns; a non-empty
    string, a number, [True], a non-empty mapping or an object makes it
    raise. *)
Theorem adapter_returns_only_on_lists (messages : pyval) (r : pyval * pyval) :
  messages_to_context py messages = Ok r ->
  (truthy messages = false /\ r = (PStr "", PStr ""))
  \/ (exists msgs, messages = PList msgs /\ msgs <> [] /\ well_formed msgs = true).
Proof.
  intros H. destruct (truthy messages) eqn:Ht.
  - right. destruct (messages_to_context_truthy_list messages r Ht H) as (x & rest & ->).
    exists (x :: rest). split; [reflexivity|]. split; [discriminate|].
    apply (messages_to_context_returns py x rest r H).
  - left. split; [reflexivity|].
    unfold messages_to_context in H. rewrite Ht in H. cbn [negb] in H.
    injection H as <-. reflexivity.
Qed.

(** X2: the role of the last turn is never read: two sequences that
    differ only in the last turn, and there not under [content], get the
    same result. *)
Theorem adapter_ignores_last_role (msgs : list pyval) (d d' : pydict) :
  lookup "content" d = lookup "content" d' ->
  messages_to_context py (PList (msgs ++ [PDict d])%list)
  = messages_to_context py (PList (msgs ++ [PDict d'])%list).
Proof.
  intros H. rewrite !messages_to_context_snoc. cbn [py_get]. rewrite H. reflexivity.
Qed.

Lemma str_append_assoc (a b c : string) : (a ++ b) ++ c = a ++ (b ++ c).
Proof. induction a as [|x a IH]; [reflexivity|]. simpl. rewrite IH. reflexivity. Qed.

Lemma join_snoc (sep : string) (parts : list string) (p : string) :
  join sep (parts ++ [p])%list =
  match parts with
  | [] => p
  | _ :: _ => join sep parts ++ sep ++ p
  end.
Proof.
  induction parts as [|a rest IH]; [reflexivity|].
  change ((a :: rest) ++ [p])%list with (a :: (rest ++ [p])%list).
  destruct rest as [|b rest'].
  - reflexivity.
  - change (join sep (a :: ((b :: rest') ++ [p])%list))
      with (a ++ sep ++ join sep ((b :: rest') ++ [p])%list).
    rewrite IH.
    change (join sep (a :: b :: rest')) with (a ++ sep ++ join sep (b :: rest')).
    rewrite !str_append_assoc. reflexivity.
Qed.

(** X3: when a conversation grows by one turn, the new context is the
    old context, a blank line, and the labeled block of the turn that was
    the query; the block alone when the old context was empty. *)
Theorem adapter_context_grows (msgs : list pyval) (m q : pyval) (c : string) (qm : pyval) :
  messages_to_context py (PList (msgs ++ [m])%list) = Ok (PStr c, qm) ->
  role_ok m = true ->
  is_dict q = true ->
  messages_to_context py (PList ((msgs ++ [m]) ++ [q])%list) =
    Ok (PStr match msgs with
             | [] => labeled_block py m
             | _ :: _ => c ++ (nl ++ nl) ++ labeled_block py m
             end,
        turn_content q).
Proof.
  rewrite !messages_to_context_snoc, context_parts_app.
  destruct (context_parts py msgs) as [parts|e] eqn:Hparts; cbn [rbind]; [|discriminate].
  destruct (py_get m "content" (PStr "")) as [qm'|e]; cbn [rbind]; [|discriminate].
  intros H Hm Hq. injection H as <- _.
  cbn [context_parts]. rewrite (context_part_ok py m Hm). cbn [rbind].
  rewrite (py_get_content q Hq). cbn [rbind]. rewrite join_snoc.
  destruct msgs as [|x rest]; cbn [context_parts] in Hparts.
  - injection Hparts as <-. reflexivity.
  - destruct (context_part py x); cbn [rbind] in Hparts; [|discriminate].
    destruct (context_parts py rest); cbn [rbind] in Hparts; [|discriminate].
    injection Hparts as <-. reflexivity.
Qed.

(** X5: the exception of the adapter is that of the first turn, in
    order, whose loop pass raises; the turns after it are not looked at. *)
Theorem adapter_first_bad_turn (good rest : list pyval) (bad : pyval) (e : exn) :
  forallb role_ok good = true ->
  context_part py bad = Raise e ->
  rest <> [] ->
  messages_to_context py (PList (good ++ bad :: rest)%list) = Raise e.
Proof.
  intros Hgood Hbad Hrest.
  destruct (exists_last Hrest) as (rest' & x & ->).
  change (good ++ bad :: rest' ++ [x])%list with (good ++ (bad :: rest') ++ [x])%list.
  rewrite app_assoc, messages_to_context_snoc, context_parts_app.
  rewrite (context_parts_ok py good Hgood). cbn [rbind context_parts].
  rewrite Hbad. reflexivity.
Qed.

End AdapterMore.

(** ** The adapter and the prompt together *)

Lemma join_starts_with (sep p : string) (c : ascii) (l : list string) :
  exists t, join sep (String c p :: l) = String c t.
Proof. destruct l; cbn [join]; eexists; reflexivity. Qed.

(** X4: for the turns of one request, the engine gets the content of the
    only turn verbatim when there is one turn, and the two-section template
    around a non-empty context when there are more. *)
Theorem prompt_verbatim_iff_single_turn (py : PyRuntime) (msgs : list pyval) (c q : pyval) :
  messages_to_context py (PList msgs) = Ok (c, q) ->
  msgs <> [] ->
  (List.length msgs = 1%nat -> c = PStr "" /\ full_prompt py c q = q)
  /\ ((2 <= List.length msgs)%nat ->
      exists ctx, c = PStr ctx /\ ctx <> ""
        /\ full_prompt py c q =
             PStr ("Previous conversation context:" ++ nl ++ ctx ++ nl ++ nl
                   ++ "Current request:" ++ nl ++ format_value py q)).
Proof.
  intros H Hne. destruct msgs as [|x rest]; [contradiction|].
  pose proof (messages_to_context_returns py x rest _ H) as Hwf.
  rewrite (messages_to_context_list py x rest Hwf) in H.
  remember (join (nl ++ nl) (map (labeled_block py) (removelast (x :: rest)))) as ctx
    eqn:Hctx.
  injection H as <- <-.
  split.
  - intros Hlen. destruct rest as [|y rest']; [|discriminate Hlen].
    cbn in Hctx. subst ctx. split; reflexivity.
  - intros Hlen. destruct rest as [|y rest']; [cbn in Hlen; lia|].
    assert (Hstart : exists t, ctx = String "["%char t).
    { subst ctx.
      change (removelast (x :: y :: rest')) with (x :: removelast (y :: rest')).
      cbn [map]. apply (join_starts_with (nl ++ nl)). }
    destruct Hstart as [t ->].
    exists (String "["%char t). split; [reflexivity|]. split; [discriminate|reflexivity].
Qed.

Lemma prompt_single_turn_witness :
  messages_to_context example_runtime (PList [turn "user" "Hi"]) = Ok (PStr "", PStr "Hi")
  /\ full_prompt example_runtime (PStr "") (PStr "Hi") = PStr "Hi".
Proof.
  split; [reflexivity|].
  refine (proj2 (proj1 (prompt_verbatim_iff_single_turn example_runtime
                          [turn "user" "Hi"] (PStr "") (PStr "Hi") eq_refl _) eq_refl)).
  discriminate.
Defined.

(** ** Credentials *)

Lemma lookup_api_key (w : World) (config : RlmConfig) :
  lookup "api_key" (backend_kwargs_of w config) =
  match api_key_of w config with
  | Some k => if String.eqb k "" then None else Some (PStr k)
  | None => None
  end.
Proof.
  unfold backend_kwargs_of. cbn [lookup]. change (String.eqb "api_key" "model_name") with false.
  cbn iota. destruct (api_key_of w config) as [k|]; [|reflexivity].
  destruct (String.eqb k ""); reflexivity.
Qed.

(** X6: the engine is given an API key exactly when the backend is one
    of the three known identifiers and the environment variable of that
    backend holds a non-empty value, and then it is that value; the key of
    another backend is never passed, and an unknown backend gets none. *)
Theorem credential_of_own_backend (w : World) (config : RlmConfig) (v : pyval) :
  lookup "api_key" (backend_kwargs_of w config) = Some v <->
  exists b slot k,
    backend config = PStr b /\ In (b, slot) credential_slots
    /\ getenv (environ w) slot = Some k /\ k <> "" /\ v = PStr k.
Proof.
  rewrite lookup_api_key. unfold api_key_of, py_eq_str, credential_slots.
  split.
  - destruct (backend config) as [| | | |b| | |]; try discriminate.
    destruct (String.eqb_spec b "openrouter") as [->|H1];
      [|destruct (String.eqb_spec b "openai") as [->|H2];
        [|destruct (String.eqb_spec b "anthropic") as [->|H3]; [|discriminate]]];
      match goal with
      | |- context [getenv (environ w) ?slot] =>
          destruct (getenv (environ w) slot) as [k|] eqn:Hk; [|discriminate];
          destruct (String.eqb_spec k "") as [->|Hne]; [discriminate|];
          intros H; injection H as <-;
          eexists _, slot, k; repeat split; try eassumption; cbn; auto
      end.
  - intros (b & slot & k & -> & Hin & Hk & Hne & ->).
    cbn [In] in Hin.
    destruct Hin as [E|[E|[E|[]]]]; injection E as <- <-; cbn; rewrite Hk;
      destruct (String.eqb_spec k ""); try contradiction; reflexivity.
Qed.

(** ** The orchestrator on other inputs and outcomes *)

Section OrchestratorMore.

Variable py : PyRuntime.

Lemma py_len_raises (v : pyval) (e : exn) :
  py_len v = Raise e -> exn_is_import_error e = false.
Proof. destruct v; cbn; try discriminate; intros H; injection H as <-; reflexivity. Qed.

Lemma py_attr_raises (v : pyval) (name : string) (e : exn) :
  py_attr v name = Raise e -> exn_is_import_error e = false.
Proof.
  destruct v; cbn; try (intros H; injection H as <-; reflexivity).
  destruct (lookup name attrs); [discriminate|]. intros H; injection H as <-; reflexivity.
Qed.

(** X7: a query that has no length (a number, [None], a boolean) stops
    the orchestrator before the engine is built: it raises the
    [TypeError] of [len], and the trace holds no engine call. *)
Theorem no_engine_call_without_len (w : World) (eng : Engine) (context : string)
        (query : pyval) (config : RlmConfig) (e : exn) :
  import_rlm w = Ok eng ->
  py_len query = Raise e ->
  run_rlm_completion py w (PStr context) query config =
    (Raise e, [EvOrchestrator (PStr context) query config]).
Proof.
  intros Himp Hlen. unfold run_rlm_completion, run_rlm_try.
  rewrite Himp, Hlen. unfold bind, try_except, lift, emit, raise. cbn.
  rewrite (py_len_raises query e Hlen). reflexivity.
Qed.

(** X8: an [ImportError] raised by the engine call itself, after a
    successful import, is answered with the fallback too: the engine was
    called, and the caller gets the marked placeholder. *)
Theorem import_error_inside_engine_is_absorbed (w : World) (eng : Engine)
        (context query : string) (config : RlmConfig) (e : exn) :
  import_rlm w = Ok eng ->
  eng (engine_call py w (PStr context) (PStr query) config) = Raise e ->
  exn_is_import_error e = true ->
  run_rlm_completion py w (PStr context) (PStr query) config =
    (Ok (mock_of query),
     [EvOrchestrator (PStr context) (PStr query) config;
      EvEngine (engine_call py w (PStr context) (PStr query) config)]).
Proof.
  intros Himp Heng Hie. unfold run_rlm_completion.
  rewrite (run_rlm_try_engine py w eng context query config Himp), Heng.
  cbn [rbind]. unfold bind, try_except, emit, mock_response, lift, ret. cbn.
  rewrite Hie. reflexivity.
Qed.

(** X9: a result of the engine without [response], or whose [response]
    has no length, makes the orchestrator raise that [AttributeError] or
    [TypeError]; no response is built from the rest of the result. *)
Theorem malformed_engine_result_raises (w : World) (eng : Engine)
        (context query : string) (config : RlmConfig) (res : pyval) (e : exn) :
  import_rlm w = Ok eng ->
  eng (engine_call py w (PStr context) (PStr query) config) = Ok res ->
  (let? response := py_attr res "response" in py_len response) = Raise e ->
  run_rlm_completion py w (PStr context) (PStr query) config =
    (Raise e,
     [EvOrchestrator (PStr context) (PStr query) config;
      EvEngine (engine_call py w (PStr context) (PStr query) config)]).
Proof.
  intros Himp Heng Hbad. unfold run_rlm_completion.
  rewrite (run_rlm_try_engine py w eng context query config Himp), Heng.
  cbn [rbind].
  destruct (py_attr res "response") as [response|e'] eqn:Hattr; cbn [rbind] in Hbad |- *.
  - rewrite Hbad. cbn [rbind]. unfold bind, try_except, emit, raise. cbn.
    rewrite (py_len_raises response e Hbad). reflexivity.
  - injection Hbad as ->. unfold bind, try_except, emit, raise. cbn.
    rewrite (py_attr_raises res "response" e Hattr). reflexivity.
Qed.

(** X10: with the engine unavailable, the orchestrator returns the
    fallback exactly when the query is a string or a list; for any other
    query the slice [query[:100]] raises inside the handler and the
    request fails. *)
Theorem fallback_returns_iff_sliceable (w : World) (context query : pyval)
        (config : RlmConfig) (e : exn) :
  import_rlm w = Raise e ->
  exn_is_import_error e = true ->
  (exists r, fst (run_rlm_completion py w context query config) = Ok r)
  <-> ((exists s, query = PStr s) \/ (exists l, query = PList l)).
Proof.
  intros Himp Hie. unfold run_rlm_completion, run_rlm_try. rewrite Himp.
  unfold bind, try_except, lift, emit, mock_response, ret. cbn. rewrite Hie.
  split.
  - intros [r H]. destruct query; cbn in H; try discriminate H; eauto.
  - intros [[s ->]|[l ->]]; cbn; eauto.
Qed.

Lemma py_or_zero (v : pyval) :
  truthy (py_or v (PInt 0)) = true \/ py_or v (PInt 0) = PInt 0.
Proof. unfold py_or. destruct (truthy v) eqn:H; auto. Qed.

(** X11: every token count the orchestrator reports is a populated value
    or the integer [0]: an attribute that is [None], [0.0] or empty never
    reaches the usage mapping. *)
Theorem token_counts_populated_or_zero (res : pyval) (d : pydict) (k : string) (v : pyval) :
  usage_of res = PDict d ->
  lookup k d = Some v ->
  truthy v = true \/ v = PInt 0.
Proof.
  unfold usage_of.
  destruct (truthy (py_getattr res "usage_summary" PNone)).
  - intros H; injection H as <-. cbn [lookup].
    destruct (String.eqb k "promptTokens").
    { intros H; injection H as <-. apply py_or_zero. }
    destruct (String.eqb k "completionTokens"); [|discriminate].
    intros H; injection H as <-. apply py_or_zero.
  - intros H; injection H as <-. discriminate.
Qed.

End OrchestratorMore.

(** ** The endpoint as a whole *)

Lemma bind_lift_raise {A B : Type} (e : exn) (f : A -> M B) :
  bind (lift (Raise e)) f = (Raise e, []).
Proof. reflexivity. Qed.

Lemma fst_bind {A B : Type} (m : M A) (f : A -> M B) :
  fst (bind m f) = match fst m with Ok a => fst (f a) | Raise e => Raise e end.
Proof. destruct m as [[a|e] t]; cbn; [destruct (f a)|]; reflexivity. Qed.

Lemma snd_bind {A B : Type} (m : M A) (f : A -> M B) :
  snd (bind m f) =
  match fst m with Ok a => (snd m ++ snd (f a))%list | Raise e => snd m end.
Proof. destruct m as [[a|e] t]; cbn; [destruct (f a)|]; reflexivity. Qed.

Lemma fst_try_except {A : Type} (m : M A) (h : exn -> M A) :
  fst (try_except m h) = match fst m with Ok a => Ok a | Raise e => fst (h e) end.
Proof. destruct m as [[a|e] t]; cbn; [|destruct (h e)]; reflexivity. Qed.

Lemma snd_try_except {A : Type} (m : M A) (h : exn -> M A) :
  snd (try_except m h) =
  match fst m with Ok a => snd m | Raise e => (snd m ++ snd (h e))%list end.
Proof. destruct m as [[a|e] t]; cbn; [|destruct (h e)]; reflexivity. Qed.

Section EndpointMore.

Variable py : PyRuntime.
Variable dflt : Defaults.
Variable w : World.

(** The [try] body of the orchestrator leaves no event or one engine
    call. *)
Lemma run_rlm_try_trace (context query : pyval) (config : RlmConfig) :
  snd (run_rlm_try py w context query config) = []
  \/ snd (run_rlm_try py w context query config)
     = [EvEngine (engine_call py w context query config)].
Proof.
  unfold run_rlm_try, bind, lift, emit, ret.
  destruct (import_rlm w) as [eng|e]; [|left; reflexivity].
  destruct (py_len context); [|left; reflexivity].
  destruct (py_len query); [|left; reflexivity].
  destruct (py_len (call_prompt (engine_call py w context query config)));
    [|left; reflexivity].
  right.
  destruct (eng (engine_call py w context query config)) as [res|e]; [|reflexivity].
  destruct (py_attr res "response") as [response|e]; [|reflexivity].
  destruct (py_len response); reflexivity.
Qed.

Lemma mock_response_trace (query : pyval) : snd (mock_response py query) = [].
Proof. unfold mock_response, bind, lift, ret. destruct (py_slice_to py 100 query); reflexivity. Qed.

Lemma run_rlm_completion_trace (context query : pyval) (config : RlmConfig) :
  snd (run_rlm_completion py w context query config)
  = [EvOrchestrator context query config]
  \/ snd (run_rlm_completion py w context query config)
     = [EvOrchestrator context query config;
        EvEngine (engine_call py w context query config)].
Proof.
  unfold run_rlm_completion. rewrite snd_bind. cbn [emit fst snd app].
  rewrite snd_try_except.
  assert (Hh : forall e, snd (if exn_is_import_error e
                              then mock_response py query
                              else @raise CompletionResponse e) = []).
  { intros e. destruct (exn_is_import_error e); [apply mock_response_trace|reflexivity]. }
  destruct (run_rlm_try_trace context query config) as [Ht|Ht]; rewrite Ht;
    destruct (fst (run_rlm_try py w context query config)); try rewrite Hh; auto.
Qed.

(** A request that passes validation, parsing and the adapter goes on to
    the orchestrator and the serialization. *)
Lemma completion_try_reaches (req : result pyval) (c q : pyval) (cfg : RlmConfig) :
  request_reaches py dflt req c q cfg ->
  completion_try py dflt w req =
  (response <- run_rlm_completion py w c q cfg ;;
   b <- lift (jsonify py (asdict py response)) ;;
   ret {| status := 200; body := b |}).
Proof.
  intros (data & messages & -> & Hdata & Hmsgs & Htruthy & Hcfg & Hctx).
  unfold completion_try.
  rewrite bind_lift_ok, Hdata. cbn [negb].
  rewrite Hmsgs, bind_lift_ok, Htruthy. cbn [negb].
  rewrite Hcfg, bind_lift_ok.
  destruct (messages_to_context_truthy_list py messages _ Htruthy Hctx) as (x & rest & ->).
  cbn [py_len]. rewrite bind_lift_ok, Hctx, bind_lift_ok. reflexivity.
Qed.

(** A request that does not get that far leaves no trace. *)
Lemma completion_try_unreached (req : result pyval) :
  (exists c q cfg, request_reaches py dflt req c q cfg)
  \/ snd (completion_try py dflt w req) = [].
Proof.
  unfold completion_try, request_reaches.
  destruct req as [data|e]; [|right; reflexivity].
  rewrite bind_lift_ok.
  destruct (truthy data) eqn:Hdata; cbn [negb]; [|right; reflexivity].
  destruct (py_get data "messages" (PList [])) as [messages|e] eqn:Hmsgs;
    [|right; reflexivity].
  rewrite bind_lift_ok.
  destruct (truthy messages) eqn:Htruthy; cbn [negb]; [|right; reflexivity].
  destruct (parse_config dflt data) as [cfg|e] eqn:Hcfg; [|right; reflexivity].
  rewrite bind_lift_ok.
  destruct (py_len messages) as [n|e]; [|right; reflexivity].
  rewrite bind_lift_ok.
  destruct (messages_to_context py messages) as [[c q]|e] eqn:Hctx; [|right; reflexivity].
  left. exists c, q, cfg, data, messages. repeat split; assumption.
Qed.

Lemma completion_trace (req : result pyval) :
  snd (completion py dflt w req) = snd (completion_try py dflt w req).
Proof.
  unfold completion. rewrite snd_try_except.
  destruct (fst (completion_try py dflt w req)); [reflexivity|].
  cbn [ret snd]. apply app_nil_r.
Qed.

(** X12: one request enters the orchestrator at most once and calls the
    engine at most once, never the engine without the orchestrator; the
    orchestrator gets the output of the adapter and the parsed
    configuration, and the engine the call built from them. *)
Theorem at_most_one_engine_call (req : result pyval) :
  snd (completion py dflt w req) = []
  \/ exists c q cfg,
       request_reaches py dflt req c q cfg
       /\ (snd (completion py dflt w req) = [EvOrchestrator c q cfg]
           \/ snd (completion py dflt w req)
              = [EvOrchestrator c q cfg; EvEngine (engine_call py w c q cfg)]).
Proof.
  rewrite completion_trace.
  destruct (completion_try_unreached req) as [(c & q & cfg & Hreach)|Hnone];
    [|left; exact Hnone].
  right. exists c, q, cfg. split; [exact Hreach|].
  rewrite (completion_try_reaches req c q cfg Hreach), snd_bind.
  assert (Hrest : forall response,
             snd (b <- lift (jsonify py (asdict py response)) ;;
                  ret {| status := 200; body := b |}) = []).
  { intros response. unfold bind, lift, ret. destruct (jsonify py (asdict py response)); reflexivity. }
  destruct (run_rlm_completion_trace c q cfg) as [Ht|Ht]; rewrite Ht;
    destruct (fst (run_rlm_completion py w c q cfg)); try rewrite Hrest; auto.
Qed.

End EndpointMore.

Section EndpointOutcomes.

Variable py : PyRuntime.
Variable dflt : Defaults.
Variable w : World.

(** What is written for a response is the three entries in the order of
    their keys, each field as the writer has it. *)
Lemma jsonify_asdict_ok (r : CompletionResponse) (b : pyval) :
  jsonify py (asdict py r) = Ok b ->
  exists t u m,
    b = PDict [("metadata", m); ("text", t); ("usage", u)]
    /\ json_written py (asdict_inner py (text r)) = Ok t
    /\ json_written py (asdict_inner py (usage r)) = Ok u
    /\ json_written py (asdict_inner py (metadata r)) = Ok m.
Proof.
  unfold jsonify, asdict. cbn [json_written map].
  set (t := json_written py (asdict_inner py (text r))).
  set (u := json_written py (asdict_inner py (usage r))).
  set (m := json_written py (asdict_inner py (metadata r))).
  change (sort_entries [("text", t); ("usage", u); ("metadata", m)])
    with [("metadata", m); ("text", t); ("usage", u)].
  cbn [sequence_entries].
  destruct m as [m'|e]; cbn [rbind]; [|discriminate].
  destruct t as [t'|e]; cbn [rbind]; [|discriminate].
  destruct u as [u'|e]; cbn [rbind]; [|discriminate].
  intros H; injection H as <-. exists t', u', m'. repeat split.
Qed.

Lemma completion_try_shape (req : result pyval) (resp : http_response) :
  fst (completion_try py dflt w req) = Ok resp ->
  (status resp = 400%Z /\ exists msg, body resp = error_body msg)
  \/ (status resp = 200%Z
      /\ exists c q cfg r,
           request_reaches py dflt req c q cfg
           /\ fst (run_rlm_completion py w c q cfg) = Ok r
           /\ jsonify py (asdict py r) = Ok (body resp)).
Proof.
  unfold completion_try. destruct req as [data|e]; [|discriminate].
  rewrite bind_lift_ok.
  destruct (truthy data) eqn:Hdata; cbn [negb];
    [|cbn; intros H; injection H as <-; left; cbn; eauto].
  destruct (py_get data "messages" (PList [])) as [messages|e] eqn:Hmsgs; [|discriminate].
  rewrite bind_lift_ok.
  destruct (truthy messages) eqn:Htruthy; cbn [negb];
    [|cbn; intros H; injection H as <-; left; cbn; eauto].
  destruct (parse_config dflt data) as [config|e] eqn:Hcfg; [|discriminate].
  rewrite bind_lift_ok.
  destruct (py_len messages) as [n|e]; [|discriminate].
  rewrite bind_lift_ok.
  destruct (messages_to_context py messages) as [[c q]|e] eqn:Hctx; [|discriminate].
  rewrite bind_lift_ok, fst_bind. cbn [fst snd].
  destruct (fst (run_rlm_completion py w c q config)) as [response|e] eqn:Hrun;
    [|discriminate].
  rewrite fst_bind. cbn [lift fst].
  destruct (jsonify py (asdict py response)) as [b|e] eqn:Hjson; [|discriminate].
  cbn [rbind bind lift ret fst]. intros H; injection H as <-. right.
  split; [reflexivity|]. exists c, q, config, response.
  split; [exists data, messages; repeat split; assumption|].
  split; [exact Hrun|exact Hjson].
Qed.

(** X13: the endpoint always answers, and the body goes with the status:
    with 200 the request passed the validation and the adapter, the
    orchestrator returned a response, and the body is what the JSON
    provider wrote for it, the three entries [metadata], [text], [usage]
    and no other, each the field as written; with 400 or 500 it is the
    single entry [error] holding a string. *)
Theorem response_body_matches_status (req : result pyval) :
  exists resp,
    fst (completion py dflt w req) = Ok resp
    /\ ((status resp = 200%Z
         /\ exists c q cfg r t u m,
              request_reaches py dflt req c q cfg
              /\ fst (run_rlm_completion py w c q cfg) = Ok r
              /\ body resp = PDict [("metadata", m); ("text", t); ("usage", u)]
              /\ json_written py (asdict_inner py (text r)) = Ok t
              /\ json_written py (asdict_inner py (usage r)) = Ok u
              /\ json_written py (asdict_inner py (metadata r)) = Ok m)
        \/ ((status resp = 400%Z \/ status resp = 500%Z)
            /\ exists msg, body resp = error_body msg)).
Proof.
  unfold completion. rewrite fst_try_except.
  destruct (fst (completion_try py dflt w req)) as [resp|e] eqn:Htry.
  - exists resp. split; [reflexivity|].
    destruct (completion_try_shape req resp Htry)
      as [[Hs Hb]|[Hs (c & q & cfg & r & Hreach & Hrun & Hjson)]].
    + right. split; [left; exact Hs|exact Hb].
    + left. split; [exact Hs|].
      destruct (jsonify_asdict_ok r _ Hjson) as (t & u & m & Hb & Ht & Hu & Hm).
      exists c, q, cfg, r, t, u, m. repeat split; assumption.
  - eexists. split; [reflexivity|]. right. cbn. split; [right; reflexivity|eauto].
Qed.

(** X14: a failure of the engine, on a request that got as far as the
    orchestrator with a string context and query, is answered 500 with
    the message of that failure and nothing else. *)
Theorem engine_failure_is_a_500 (req : result pyval) (c q : string) (cfg : RlmConfig)
        (e : exn) :
  request_reaches py dflt req (PStr c) (PStr q) cfg ->
  engine_outcome py w (PStr c) (PStr q) cfg = Raise e ->
  exn_is_import_error e = false ->
  fst (completion py dflt w req) = Ok {| status := 500; body := error_body (exn_str e) |}.
Proof.
  intros Hreach Hout Hie.
  assert (Hrun : fst (run_rlm_completion py w (PStr c) (PStr q) cfg) = Raise e).
  { unfold engine_outcome in Hout. unfold run_rlm_completion.
    rewrite fst_bind. cbn [emit fst]. rewrite fst_try_except.
    destruct (import_rlm w) as [eng|e'] eqn:Himp; cbn [rbind] in Hout.
    - rewrite (run_rlm_try_engine py w eng c q cfg Himp), Hout. cbn [rbind fst].
      rewrite Hie. reflexivity.
    - injection Hout as ->. unfold run_rlm_try. rewrite Himp, bind_lift_raise.
      cbn [fst]. rewrite Hie. reflexivity. }
  unfold completion. rewrite fst_try_except.
  rewrite (completion_try_reaches py dflt w req _ _ cfg Hreach), fst_bind, Hrun.
  reflexivity.
Qed.

(** X15: with the engine unavailable, a request whose last content is a
    string is answered 200 with the serialized fallback: the caller cannot
    tell the failure from the status. *)
Theorem engine_unavailable_is_a_200 (req : result pyval) (c : pyval) (q : string)
        (cfg : RlmConfig) (e : exn) :
  request_reaches py dflt req c (PStr q) cfg ->
  import_rlm w = Raise e ->
  exn_is_import_error e = true ->
  completion py dflt w req =
    (Ok {| status := 200;
           body := PDict [("metadata", metadata (mock_of q));
                          ("text", text (mock_of q));
                          ("usage", usage (mock_of q))] |},
     [EvOrchestrator c (PStr q) cfg]).
Proof.
  intros Hreach Himp Hie.
  unfold completion. rewrite (completion_try_reaches py dflt w req _ _ cfg Hreach).
  unfold run_rlm_completion, run_rlm_try. rewrite Himp.
  unfold bind, try_except, lift, emit, ret, mock_response. cbn. rewrite Hie. reflexivity.
Qed.

(** X16: a value under [rlmConfig] that is not a mapping ([null], a
    string, a list) is answered 500 with the [AttributeError] of [get];
    the orchestrator is not entered. *)
Theorem non_mapping_config_is_a_500 (d : pydict) (messages v : pyval) :
  lookup "messages" d = Some messages ->
  truthy messages = true ->
  lookup "rlmConfig" d = Some v ->
  is_dict v = false ->
  completion py dflt w (Ok (PDict d)) =
    (Ok {| status := 500; body := error_body (exn_str (AttributeError v "get")) |}, []).
Proof.
  intros Hm Ht Hc Hv.
  assert (Hd : truthy (PDict d) = true) by (destruct d; [discriminate Hm|reflexivity]).
  unfold completion, completion_try.
  rewrite bind_lift_ok, Hd. cbn [negb py_get]. rewrite Hm, bind_lift_ok, Ht. cbn [negb].
  unfold parse_config. cbn [py_get rbind]. rewrite Hc.
  destruct v; try discriminate Hv; reflexivity.
Qed.

(** X17: messages that are a true value but not a list (a string, a
    number, a mapping) are answered 500, and the orchestrator is not
    entered. *)
Theorem non_list_messages_is_a_500 (data messages : pyval) :
  truthy data = true ->
  py_get data "messages" (PList []) = Ok messages ->
  truthy messages = true ->
  (forall l, messages <> PList l) ->
  exists msg,
    completion py dflt w (Ok data) = (Ok {| status := 500; body := error_body msg |}, []).
Proof.
  intros Hd Hm Ht Hnl.
  unfold completion, completion_try.
  rewrite bind_lift_ok, Hd. cbn [negb]. rewrite Hm, bind_lift_ok, Ht. cbn [negb].
  destruct (parse_config dflt data) as [cfg|e]; [|eexists; reflexivity].
  rewrite bind_lift_ok.
  destruct (py_len messages) as [n|e]; [|eexists; reflexivity].
  rewrite bind_lift_ok.
  destruct (messages_to_context py messages) as [r|e] eqn:Hctx; [|eexists; reflexivity].
  destruct (messages_to_context_truthy_list py messages r Ht Hctx) as (x & rest & ->).
  exfalso. apply (Hnl (x :: rest)). reflexivity.
Qed.

Lemma engine_call_same_but_environment (c q : pyval) (cfg1 cfg2 : RlmConfig) :
  same_but_environment cfg1 cfg2 ->
  engine_call py w c q cfg1 = engine_call py w c q cfg2.
Proof.
  intros (Hb & Hm & Hd).
  unfold engine_call, backend_kwargs_of, api_key_of. rewrite Hb, Hm, Hd. reflexivity.
Qed.

(** X18: the field [environment] of the configuration has no effect:
    two requests with the same context and query whose configurations
    differ only there get the same response, and the engine the same
    call. *)
Theorem environment_has_no_effect (req1 req2 : result pyval) (c q : pyval)
        (cfg1 cfg2 : RlmConfig) :
  request_reaches py dflt req1 c q cfg1 ->
  request_reaches py dflt req2 c q cfg2 ->
  same_but_environment cfg1 cfg2 ->
  fst (completion py dflt w req1) = fst (completion py dflt w req2)
  /\ engine_call py w c q cfg1 = engine_call py w c q cfg2.
Proof.
  intros H1 H2 Hsame.
  pose proof (engine_call_same_but_environment c q cfg1 cfg2 Hsame) as Hcall.
  split; [|exact Hcall].
  unfold completion. rewrite !fst_try_except.
  rewrite (completion_try_reaches py dflt w req1 c q cfg1 H1),
          (completion_try_reaches py dflt w req2 c q cfg2 H2), !fst_bind.
  assert (Hrun : fst (run_rlm_completion py w c q cfg1)
                 = fst (run_rlm_completion py w c q cfg2)).
  { unfold run_rlm_completion. rewrite !fst_bind. cbn [emit fst].
    unfold run_rlm_try. rewrite Hcall. reflexivity. }
  rewrite Hrun. reflexivity.
Qed.

End EndpointOutcomes.

(** ** The health endpoint *)

(** X19: when [GET /health] answers, the status is 200 with [status]
    "ok", [rlm_available] says whether the import of the engine returned,
    the version is [null] when it did not, and the defaults reported are
    those the completion endpoint falls back to; it fails only when the
    import raises something else than an [ImportError] or the version of
    the module cannot be written. *)
Theorem health_reports_engine_and_defaults (py : PyRuntime) (dflt : Defaults)
        (import_module : result pyval) :
  (forall resp, health py dflt import_module = Ok resp ->
     status resp = 200%Z
     /\ exists d, body resp = PDict d
         /\ lookup "status" d = Some (PStr "ok")
         /\ lookup "rlm_available" d
            = Some (PBool match import_module with Ok _ => true | Raise _ => false end)
         /\ (forall e, import_module = Raise e -> lookup "rlm_version" d = Some PNone)
         /\ lookup "default_backend" d = Some (PStr (DEFAULT_BACKEND dflt))
         /\ lookup "default_model" d = Some (PStr (DEFAULT_MODEL dflt)))
  /\ (forall e, health py dflt import_module = Raise e ->
        (import_module = Raise e /\ exn_is_import_error e = false)
        \/ exists rlm, import_module = Ok rlm
             /\ jsonify py (py_getattr rlm "__version__" (PStr "unknown")) = Raise e).
Proof.
  assert (Hwrite : forall a v,
             jsonify py (PDict [("status", PStr "ok");
                                ("rlm_available", PBool a);
                                ("rlm_version", v);
                                ("default_backend", PStr (DEFAULT_BACKEND dflt));
                                ("default_model", PStr (DEFAULT_MODEL dflt))])
             = let? v' := jsonify py v in
               Ok (PDict [("default_backend", PStr (DEFAULT_BACKEND dflt));
                          ("default_model", PStr (DEFAULT_MODEL dflt));
                          ("rlm_available", PBool a);
                          ("rlm_version", v');
                          ("status", PStr "ok")])).
  { intros a v. unfold jsonify. cbn [json_written map].
    set (r := json_written py v).
    change (sort_entries [("status", Ok (PStr "ok"));
                          ("rlm_available", Ok (PBool a));
                          ("rlm_version", r);
                          ("default_backend", Ok (PStr (DEFAULT_BACKEND dflt)));
                          ("default_model", Ok (PStr (DEFAULT_MODEL dflt)))])
      with [("default_backend", Ok (PStr (DEFAULT_BACKEND dflt)));
            ("default_model", Ok (PStr (DEFAULT_MODEL dflt)));
            ("rlm_available", Ok (PBool a));
            ("rlm_version", r);
            ("status", Ok (PStr "ok"))].
    cbn [sequence_entries rbind]. destruct r; reflexivity. }
  unfold health. split.
  - intros resp.
    destruct import_module as [rlm|e]; [|destruct (exn_is_import_error e)];
      cbn [rbind fst snd]; try discriminate; rewrite Hwrite.
    + destruct (jsonify py _) as [v'|e]; cbn [rbind]; [|discriminate].
      intros H; injection H as <-.
      split; [reflexivity|]. eexists. split; [reflexivity|].
      repeat split. intros e He. discriminate He.
    + change (jsonify py PNone) with (@Ok pyval PNone). cbn [rbind].
      intros H; injection H as <-.
      split; [reflexivity|]. eexists. split; [reflexivity|]. repeat split.
  - intros e.
    destruct import_module as [rlm|e']; [|destruct (exn_is_import_error e') eqn:Hie];
      cbn [rbind fst snd]; try rewrite Hwrite.
    + intros H. right. exists rlm. split; [reflexivity|].
      destruct (jsonify py _) as [v'|e'']; cbn [rbind] in H; [discriminate H|].
      injection H as ->. reflexivity.
    + change (jsonify py PNone) with (@Ok pyval PNone). cbn [rbind]. discriminate.
    + intros H; injection H as ->. left. split; [reflexivity|exact Hie].
Qed.

(** ** The further properties at concrete inputs *)

Lemma one_turn_reaches :
  request_reaches example_runtime hardcoded_defaults (Ok one_turn_body)
    (PStr "") (PStr "Hi") hardcoded_config.
Proof. exists one_turn_body, (PList [turn "user" "Hi"]). repeat split. Qed.

Lemma docker_reaches :
  request_reaches example_runtime hardcoded_defaults (Ok docker_body)
    (PStr "") (PStr "Hi") docker_config.
Proof. exists docker_body, (PList [turn "user" "Hi"]). repeat split. Qed.

Lemma adapter_returns_only_on_lists_witness :
  messages_to_context example_runtime (PInt 0) = Ok (PStr "", PStr "")
  /\ ((truthy (PInt 0) = false /\ (PStr "", PStr "") = (PStr "", PStr ""))
      \/ (exists msgs, PInt 0 = PList msgs /\ msgs <> [] /\ well_formed msgs = true)).
Proof.
  split; [reflexivity|].
  exact (adapter_returns_only_on_lists example_runtime (PInt 0) (PStr "", PStr "") eq_refl).
Defined.

Lemma adapter_ignores_last_role_witness :
  messages_to_context example_runtime
    (PList [turn "user" "Hi"; PDict [("role", PInt 7); ("content", PStr "Bye")]])
  = messages_to_context example_runtime
      (PList [turn "user" "Hi"; PDict [("content", PStr "Bye")]]).
Proof.
  exact (adapter_ignores_last_role example_runtime [turn "user" "Hi"]
           [("role", PInt 7); ("content", PStr "Bye")] [("content", PStr "Bye")] eq_refl).
Defined.

Lemma adapter_context_grows_witness :
  messages_to_context example_runtime (PList [turn "user" "Hi"; turn "assistant" "Hello"])
  = Ok (PStr "[USER]: Hi", PStr "Hello")
  /\ messages_to_context example_runtime
       (PList [turn "user" "Hi"; turn "assistant" "Hello"; turn "user" "Bye"])
     = Ok (PStr ("[USER]: Hi" ++ nl ++ nl ++ "[ASSISTANT]: Hello"), PStr "Bye").
Proof.
  split; [reflexivity|].
  exact (adapter_context_grows example_runtime [turn "user" "Hi"] (turn "assistant" "Hello")
           (turn "user" "Bye") "[USER]: Hi" (PStr "Hello") eq_refl eq_refl eq_refl).
Defined.

Lemma adapter_first_bad_turn_witness :
  context_part example_runtime (PDict [("role", PInt 7)])
  = Raise (AttributeError (PInt 7) "upper")
  /\ messages_to_context example_runtime
       (PList [turn "user" "Hi"; PDict [("role", PInt 7)]; PStr "not a turn";
               turn "user" "Bye"])
     = Raise (AttributeError (PInt 7) "upper").
Proof.
  split; [reflexivity|].
  refine (adapter_first_bad_turn example_runtime [turn "user" "Hi"]
            [PStr "not a turn"; turn "user" "Bye"] (PDict [("role", PInt 7)])
            (AttributeError (PInt 7) "upper") eq_refl eq_refl _).
  discriminate.
Defined.

Lemma no_engine_call_without_len_witness :
  py_len (PInt 5) = Raise (TypeError "object of type 'int' has no len()")
  /\ run_rlm_completion example_runtime (world_with bare_engine) (PStr "") (PInt 5)
       hardcoded_config
     = (Raise (TypeError "object of type 'int' has no len()"),
        [EvOrchestrator (PStr "") (PInt 5) hardcoded_config]).
Proof.
  split; [reflexivity|].
  exact (no_engine_call_without_len example_runtime (world_with bare_engine) bare_engine
           "" (PInt 5) hardcoded_config _ eq_refl eq_refl).
Defined.

Lemma import_error_inside_engine_witness :
  fst (run_rlm_completion example_runtime (world_with lazy_import_engine)
         (PStr "") (PStr "Hi") hardcoded_config)
  = Ok (mock_of "Hi").
Proof.
  exact (f_equal fst
           (import_error_inside_engine_is_absorbed example_runtime
              (world_with lazy_import_engine) lazy_import_engine "" "Hi" hardcoded_config
              missing_client eq_refl eq_refl eq_refl)).
Defined.

Lemma malformed_engine_result_witness :
  fst (run_rlm_completion example_runtime (world_with empty_result_engine)
         (PStr "") (PStr "Hi") hardcoded_config)
  = Raise (AttributeError (PObj "RLMChatCompletion" []) "response").
Proof.
  exact (f_equal fst
           (malformed_engine_result_raises example_runtime (world_with empty_result_engine)
              empty_result_engine "" "Hi" hardcoded_config (PObj "RLMChatCompletion" [])
              _ eq_refl eq_refl eq_refl)).
Defined.

Lemma fallback_returns_iff_sliceable_witness :
  (exists r, fst (run_rlm_completion example_runtime world_without_engine
                    (PStr "") (PList [PStr "Hi"]) hardcoded_config) = Ok r)
  /\ ~ (exists r, fst (run_rlm_completion example_runtime world_without_engine
                         (PStr "") PNone hardcoded_config) = Ok r).
Proof.
  split.
  - apply (fallback_returns_iff_sliceable example_runtime world_without_engine
             (PStr "") (PList [PStr "Hi"]) hardcoded_config no_module eq_refl eq_refl).
    right. eexists. reflexivity.
  - intros H.
    apply (fallback_returns_iff_sliceable example_runtime world_without_engine
             (PStr "") PNone hardcoded_config no_module eq_refl eq_refl) in H.
    destruct H as [[s H]|[l H]]; discriminate H.
Defined.

Lemma token_counts_witness :
  truthy (PInt 12) = true \/ PInt 12 = PInt 0.
Proof.
  exact (token_counts_populated_or_zero
           (PObj "RLMChatCompletion"
              [("usage_summary", PObj "UsageSummary" [("input_tokens", PInt 12)])])
           [("promptTokens", PInt 12); ("completionTokens", PInt 0)]
           "promptTokens" (PInt 12) eq_refl eq_refl).
Defined.

Lemma engine_failure_is_a_500_witness :
  fst (completion example_runtime hardcoded_defaults (world_with failing_engine)
         (Ok one_turn_body))
  = Ok {| status := 500; body := error_body "provider returned 401" |}.
Proof.
  exact (engine_failure_is_a_500 example_runtime hardcoded_defaults
           (world_with failing_engine) (Ok one_turn_body) "" "Hi" hardcoded_config
           provider_error one_turn_reaches eq_refl eq_refl).
Defined.

Lemma engine_unavailable_is_a_200_witness :
  completion example_runtime hardcoded_defaults world_without_engine (Ok one_turn_body)
  = (Ok {| status := 200;
           body := PDict [("metadata", PDict [("mock", PBool true)]);
                          ("text", PStr "[RLM MOCK] Would process query: Hi...");
                          ("usage", PNone)] |},
     [EvOrchestrator (PStr "") (PStr "Hi") hardcoded_config]).
Proof.
  exact (engine_unavailable_is_a_200 example_runtime hardcoded_defaults
           world_without_engine (Ok one_turn_body) (PStr "") "Hi" hardcoded_config
           no_module one_turn_reaches eq_refl eq_refl).
Defined.

Lemma non_mapping_config_witness :
  completion example_runtime hardcoded_defaults (world_with bare_engine)
    (Ok (PDict [("messages", PList [turn "user" "Hi"]); ("rlmConfig", PNone)]))
  = (Ok {| status := 500;
           body := error_body "'NoneType' object has no attribute 'get'" |}, []).
Proof.
  exact (non_mapping_config_is_a_500 example_runtime hardcoded_defaults
           (world_with bare_engine)
           [("messages", PList [turn "user" "Hi"]); ("rlmConfig", PNone)]
           (PList [turn "user" "Hi"]) PNone eq_refl eq_refl eq_refl eq_refl).
Defined.

Lemma non_list_messages_witness :
  exists msg,
    completion example_runtime hardcoded_defaults (world_with bare_engine)
      (Ok (PDict [("messages", PStr "Hi")]))
    = (Ok {| status := 500; body := error_body msg |}, []).
Proof.
  refine (non_list_messages_is_a_500 example_runtime hardcoded_defaults
            (world_with bare_engine) (PDict [("messages", PStr "Hi")]) (PStr "Hi")
            eq_refl eq_refl eq_refl _).
  intros l H. discriminate H.
Defined.

Lemma environment_has_no_effect_witness :
  fst (completion example_runtime hardcoded_defaults (world_with metered_engine)
         (Ok one_turn_body))
  = fst (completion example_runtime hardcoded_defaults (world_with metered_engine)
           (Ok docker_body)).
Proof.
  refine (proj1 (environment_has_no_effect example_runtime hardcoded_defaults
                   (world_with metered_engine) (Ok one_turn_body) (Ok docker_body)
                   (PStr "") (PStr "Hi") hardcoded_config docker_config
                   one_turn_reaches docker_reaches _)).
  repeat split.
Defined.

(** The string example of the messages, as the endpoint answers it. *)
Example endpoint_string_messages :
  completion example_runtime hardcoded_defaults (world_with bare_engine)
    (Ok (PDict [("messages", PStr "Hi")]))
  = (Ok {| status := 500; body := error_body "'str' object has no attribute 'get'" |}, []).
Proof. vm_compute. reflexivity. Qed.

(** The health endpoint without and with the engine. *)
Example health_without_engine :
  health example_runtime hardcoded_defaults (Raise no_module)
  = Ok {| status := 200;
          body := PDict [("default_backend", PStr "openrouter");
                         ("default_model", PStr "google/gemini-3-flash-preview");
                         ("rlm_available", PBool false);
                         ("rlm_version", PNone);
                         ("status", PStr "ok")] |}.
Proof. reflexivity. Qed.

Example health_with_engine :
  health example_runtime hardcoded_defaults (Ok (PObj "module" []))
  = Ok {| status := 200;
          body := PDict [("default_backend", PStr "openrouter");
                         ("default_model", PStr "google/gemini-3-flash-preview");
                         ("rlm_available", PBool true);
                         ("rlm_version", PStr "unknown");
                         ("status", PStr "ok")] |}.
Proof. reflexivity. Qed.

(** ** Results that cannot be written *)

(** X20: when the orchestrator has returned a response, with the trace
    [t] of what it did, and writing that response as JSON raises [e] (a
    value under [executionTime] that the serializer has no rule for,
    say), the request is answered 500 with the message of [e], and the
    trace of the request is [t]: the failure comes after the
    orchestrator, and so after the engine, has run. *)
Theorem unwritable_result_is_a_500 (py : PyRuntime) (dflt : Defaults) (w : World)
        (req : result pyval) (c q : pyval) (cfg : RlmConfig) (r : CompletionResponse)
        (t : list event) (e : exn) :
  request_reaches py dflt req c q cfg ->
  run_rlm_completion py w c q cfg = (Ok r, t) ->
  jsonify py (asdict py r) = Raise e ->
  completion py dflt w req =
    (Ok {| status := 500; body := error_body (exn_str e) |}, t).
Proof.
  intros Hreach Hrun Hser.
  unfold completion.
  rewrite (completion_try_reaches py dflt w req c q cfg Hreach).
  unfold bind, try_except, lift, ret. rewrite Hrun. cbn [fst snd].
  rewrite Hser. cbn [fst snd]. rewrite !app_nil_r. reflexivity.
Qed.

Lemma unwritable_result_witness :
  completion example_runtime hardcoded_defaults (world_with timed_engine)
    (Ok one_turn_body)
  = (Ok {| status := 500;
           body := error_body "Object of type timedelta is not JSON serializable" |},
     [EvOrchestrator (PStr "") (PStr "Hi") hardcoded_config;
      EvEngine (engine_call example_runtime (world_with timed_engine) (PStr "")
                  (PStr "Hi") hardcoded_config)]).
Proof.
  exact (unwritable_result_is_a_500 example_runtime hardcoded_defaults
           (world_with timed_engine) (Ok one_turn_body) (PStr "") (PStr "Hi")
           hardcoded_config
           {| text := PStr "4"; usage := PDict [];
              metadata := PDict [("recursionDepth", PInt 0);
                                 ("executionTime", PObj "timedelta" [])] |}
           _ (TypeError "Object of type timedelta is not JSON serializable")
           one_turn_reaches eq_refl eq_refl).
Defined.
